(** * VDPPDF_Merger: the double-sided merge script [vdppdf.py]

    A shallow embedding of the button handler of [vdppdf.py] (lines 47-143)
    and the properties of its output document.

    Page objects live in an object store, because the script mutates them
    in place ([merge_page], [merge_translated_page]) and hands references
    to the writer.  Python floats are IEEE binary64, here Rocq's primitive
    floats; Python's unbounded [int] is [Z]. *)

From Stdlib Require Import ZArith Floats String Ascii.
From stdpp Require Import base list.

Local Open Scope Z_scope.

(** ** Pages *)

(** What a page shows.  The content stream of an uploaded page is kept
    uninterpreted; the only thing the script itself draws is one string
    ([c.setFont] then [c.drawString]). *)
Inductive graphic :=
| Stream (ops : string)
| DrawString (font : string) (size : Z) (x y : float) (text : string).

(** A drawing together with the translation it is shown at. *)
Record layer := Layer { graphic_of : graphic; dx : float; dy : float }.

Record Page := MkPage {
  mediabox_width : float;
  mediabox_height : float;
  contents : list layer
}.

Definition translate (tx ty : float) (l : layer) : layer :=
  Layer (graphic_of l) (dx l + tx)%float (dy l + ty)%float.

(** [page.merge_page(page2)]: the content of [page2] is added on top of
    [page]; the media box of [page] stays (PyPDF2's default [expand=False]). *)
Definition merged (page page2 : Page) : Page :=
  MkPage (mediabox_width page) (mediabox_height page)
         (contents page ++ contents page2).

(** [page.merge_translated_page(page2, tx, ty)]. *)
Definition merged_translated (page page2 : Page) (tx ty : float) : Page :=
  MkPage (mediabox_width page) (mediabox_height page)
         (contents page ++ map (translate tx ty) (contents page2)).

(** ** [str] of an integer *)

Definition digit_char (d : Z) : ascii := ascii_of_nat (48 + Z.to_nat d).

(** Least significant digit first, pushed in front of [acc]. *)
Fixpoint digits_acc (fuel : nat) (n : Z) (acc : string) : string :=
  let acc' := String (digit_char (n mod 10)) acc in
  match fuel with
  | O => acc'
  | S fuel' => if n <? 10 then acc' else digits_acc fuel' (n / 10) acc'
  end.

Definition digits (n : Z) : string := digits_acc (Z.to_nat n) n EmptyString.

(** Python's [str(n)] for an [int]. *)
Definition str (n : Z) : string :=
  if n <? 0 then String "-"%char (digits (- n)) else digits n.

(** Reading a digit string back, most significant digit first. *)
Definition digit_value (c : ascii) : Z := Z.of_nat (nat_of_ascii c) - 48.

Fixpoint read_digits (acc : Z) (s : string) : Z :=
  match s with
  | EmptyString => acc
  | String c s' => read_digits (10 * acc + digit_value c) s'
  end.

Definition is_digit (c : ascii) : bool :=
  (48 <=? nat_of_ascii c)%nat && (nat_of_ascii c <=? 57)%nat.

Fixpoint all_digits (s : string) : bool :=
  match s with
  | EmptyString => true
  | String c s' => is_digit c && all_digits s'
  end.

Definition first_char (s : string) : option ascii :=
  match s with
  | EmptyString => None
  | String c _ => Some c
  end.

(** ** The object store and the script's effects *)

(** References are positions in the store. *)
Abbreviation ref := nat.
Abbreviation heap := (list Page).

Inductive result (A : Type) :=
| Ok (a : A)
| Raise.
Arguments Ok {A} a.
Arguments Raise {A}.

(** A computation reads and writes the store and either returns or raises;
    the store survives a raise, as in Python. *)
Definition M (A : Type) : Type := heap -> result A * heap.

Definition ret {A} (a : A) : M A := fun h => (Ok a, h).

Definition raise {A} : M A := fun h => (Raise, h).

Definition bind {A B} (m : M A) (k : A -> M B) : M B :=
  fun h => match m h with
           | (Ok a, h') => k a h'
           | (Raise, h') => (Raise, h')
           end.

(** [try: m except: handler]. *)
Definition try_except {A} (m handler : M A) : M A :=
  fun h => match m h with
           | (Ok a, h') => (Ok a, h')
           | (Raise, h') => handler h'
           end.

Notation "x <- m ;; k" := (bind m (fun x => k))
  (at level 100, m at next level, right associativity).
Notation "m ;; k" := (bind m (fun _ => k))
  (at level 100, right associativity).

(** A fresh page object. *)
Definition new_page (p : Page) : M ref :=
  fun h => (Ok (length h), h ++ [p]).

Definition get (r : ref) : M Page :=
  fun h => match h !! r with
           | Some p => (Ok p, h)
           | None => (Raise, h)
           end.

Definition put (r : ref) (p : Page) : M unit :=
  fun h => (Ok tt, <[r := p]> h).

(** [pages[i]] of a reader. *)
Definition index (pages : list ref) (i : nat) : M ref :=
  match pages !! i with
  | Some r => ret r
  | None => raise
  end.

(** An uploaded file, as [PdfReader] sees it.  [Unreadable] is a file on
    which [PdfReader(f)] itself raises (not a PDF at all).  [Encrypted] is
    a file that [PdfReader(f)] opens but whose page list cannot be read:
    the first use of [.pages] raises.  [Pdf] is a document of well-formed
    pages, each with a media box; documents with pages that lack one are
    not modelled. *)
Inductive upload :=
| NoFile
| Unreadable
| Encrypted
| Pdf (pages : list Page).

(** What [PdfReader(f)] returns: the page objects of the file, or a
    reader whose [.pages] raises. *)
Inductive reader :=
| PageList (rs : list ref)
| NoPageList.

Definition uploaded (u : upload) : bool :=
  match u with
  | NoFile => false
  | _ => true
  end.

Fixpoint new_pages (ps : list Page) : M (list ref) :=
  match ps with
  | [] => ret []
  | p :: ps' => r <- new_page p ;; rs <- new_pages ps' ;; ret (r :: rs)
  end.

(** [PdfReader(f)]: one page object per page of the file. *)
Definition PdfReader (u : upload) : M reader :=
  match u with
  | Pdf ps => rs <- new_pages ps ;; ret (PageList rs)
  | Encrypted => ret NoPageList
  | _ => raise
  end.

(** [reader.pages].  The script uses it first at line 55 for the master
    and at line 65 for the content document. *)
Definition pages_of (r : reader) : M (list ref) :=
  match r with
  | PageList rs => ret rs
  | NoPageList => raise
  end.

(** Lines 67-73 and 110-116: the template page goes through a temporary
    writer, is serialised and read back, which gives a page object of its
    own with the template's media box and content. *)
Definition reload (template : ref) : M ref :=
  p <- get template ;; new_page p.

(** Lines 96-108: a one-page document of size (w, h) with one string
    drawn on it, read back as a page object. *)
Definition canvas_page (w h : float) (font : string) (size : Z)
    (x y : float) (text : string) : M ref :=
  new_page (MkPage w h [Layer (DrawString font size x y text) 0 0]).

(** [writer.write]: the pages as they are when the document is written. *)
Fixpoint write (writer : list ref) : M (list Page) :=
  match writer with
  | [] => ret []
  | r :: rs => p <- get r ;; ps <- write rs ;; ret (p :: ps)
  end.

(** What the user sees at the end of a click. *)
Inductive outcome :=
| Error (msg : string)
| ExceptionShown
| Download (out : list Page).

Section Script.

(** PyPDF2's merges can raise; when they do, the page they were called
    on is left as it was. *)
Variable merge_raises : Page -> Page -> bool.
Variable translated_merge_raises : Page -> Page -> float -> float -> bool.

(** The widgets' values (lines 36-45). *)
Variables front_x front_y : float.
Variable start_num : Z.
Variables x_pos y_pos : float.

Definition merge_page (page page2 : ref) : M unit :=
  p <- get page ;; p2 <- get page2 ;;
  if merge_raises p p2 then raise else put page (merged p p2).

Definition merge_translated_page (page page2 : ref) (tx ty : float)
  : M unit :=
  p <- get page ;; p2 <- get page2 ;;
  if translated_merge_raises p p2 tx ty then raise
  else put page (merged_translated p p2 tx ty).

Section Loop.

Variables master_front master_back : ref.

(** Lines 66-128, one round of the loop; returns the writer's pages
    and the next number. *)
Definition loop_body (page : ref) (writer : list ref) (number : Z)
  : M (list ref * Z) :=
  (* front page *)
  merged_front <- reload master_front ;;
  mf <- get master_front ;;
  p <- get page ;;
  let mw := mediabox_width mf in
  let mh := mediabox_height mf in
  let pw := mediabox_width p in
  let ph := mediabox_height p in
  let fx := if (0 <=? front_x)%float then front_x
            else ((mw - pw) / 2)%float in
  let fy := if (0 <=? front_y)%float then front_y
            else ((mh - ph) / 2)%float in
  try_except (merge_translated_page merged_front page fx fy)
    (try_except (merge_page merged_front page) (ret tt)) ;;
  let writer := writer ++ [merged_front] in
  (* back page with number *)
  mb <- get master_back ;;
  let w := mediabox_width mb in
  let h := mediabox_height mb in
  num_page <- canvas_page w h "Helvetica" 20 x_pos y_pos (str number) ;;
  merged_back <- reload master_back ;;
  try_except (merge_page merged_back num_page)
    (try_except (merge_translated_page merged_back num_page 0 0)
       (ret tt)) ;;
  let writer := writer ++ [merged_back] in
  ret (writer, number + 1).

(** [for page in multi_reader.pages]. *)
Fixpoint for_pages (pages : list ref) (writer : list ref) (number : Z)
  : M (list ref) :=
  match pages with
  | [] => ret writer
  | page :: rest =>
      st <- loop_body page writer number ;;
      for_pages rest (fst st) (snd st)
  end.

End Loop.

(** Lines 52-140, the body of the outer [try]. *)
Definition create_pdf (master_pdf_file multi_pdf_file : upload)
  : M outcome :=
  master_reader <- PdfReader master_pdf_file ;;
  multi_reader <- PdfReader multi_pdf_file ;;
  master_pages <- pages_of master_reader ;;
  if (length master_pages <? 2)%nat then
    ret (Error "Master PDF must contain at least 2 pages.")
  else
    master_front <- index master_pages 0 ;;
    master_back <- index master_pages 1 ;;
    multi_pages <- pages_of multi_reader ;;
    writer <- for_pages master_front master_back multi_pages [] start_num ;;
    out <- write writer ;;
    ret (Download out).

(** Lines 47-143: one click on the button, from an empty store. *)
Definition run (master_pdf_file multi_pdf_file : upload) : outcome :=
  if negb (uploaded master_pdf_file) || negb (uploaded multi_pdf_file)
  then Error "Please upload both master and multi‑page PDFs."
  else match create_pdf master_pdf_file multi_pdf_file [] with
       | (Ok o, _) => o
       | (Raise, _) => ExceptionShown
       end.

End Script.

(** ** What the output should be

    The pure counterparts of one round of the loop, named after the
    components of the design: the placement resolver, the two composites
    with their fallback ladders, the number stamp, and the assembled
    sequence of pages.  [run_assemble] below shows that the script, with
    all its copying and in-place merging, computes exactly [assemble]. *)

Section Expected.

Variable merge_raises : Page -> Page -> bool.
Variable translated_merge_raises : Page -> Page -> float -> float -> bool.
Variables front_x front_y : float.
Variables x_pos y_pos : float.

(** One coordinate of the front placement (lines 81 and 82). *)
Definition place (coordinate master_size page_size : float) : float :=
  if (0 <=? coordinate)%float then coordinate
  else ((master_size - page_size) / 2)%float.

(** Translated merge, else plain merge, else the bare template. *)
Definition compose_front (mf p : Page) (fx fy : float) : Page :=
  if translated_merge_raises mf p fx fy then
    if merge_raises mf p then mf else merged mf p
  else merged_translated mf p fx fy.

Definition front_page (mf p : Page) : Page :=
  compose_front mf p
    (place front_x (mediabox_width mf) (mediabox_width p))
    (place front_y (mediabox_height mf) (mediabox_height p)).

Definition stamp (mb : Page) (number : Z) : Page :=
  MkPage (mediabox_width mb) (mediabox_height mb)
         [Layer (DrawString "Helvetica" 20 x_pos y_pos (str number)) 0 0].

(** Plain merge, else merge translated by (0, 0), else the bare template. *)
Definition compose_back (mb s : Page) : Page :=
  if merge_raises mb s then
    if translated_merge_raises mb s 0 0 then mb
    else merged_translated mb s 0 0
  else merged mb s.

Definition back_page (mb : Page) (number : Z) : Page :=
  compose_back mb (stamp mb number).

Fixpoint assemble (mf mb : Page) (content : list Page) (number : Z)
  : list Page :=
  match content with
  | [] => []
  | p :: rest =>
      front_page mf p :: back_page mb number
        :: assemble mf mb rest (number + 1)
  end.

(** The page objects the loop leaves in the store, three per round. *)
Fixpoint rounds (mf mb : Page) (content : list Page) (number : Z)
  : list Page :=
  match content with
  | [] => []
  | p :: rest =>
      front_page mf p :: stamp mb number :: back_page mb number
        :: rounds mf mb rest (number + 1)
  end.

End Expected.

(** The references the writer receives when the loop starts with a store
    of [base] objects: the first and the third object of every round. *)
Fixpoint round_refs (base n : nat) : list ref :=
  match n with
  | O => []
  | S n' => base :: (base + 2)%nat :: round_refs (base + 3) n'
  end.

(** ** A sample job

    A 200 x 300 master, three content pages of different sizes (the last
    one larger than the template), numbers from 5, drawn at (50, 50). *)

Module Sample.

Definition front : Page := MkPage 200 300 [Layer (Stream "front") 0 0].
Definition back : Page := MkPage 200 300 [Layer (Stream "back") 0 0].
Definition master : list Page := [front; back].

Definition page_a : Page := MkPage 180 280 [Layer (Stream "a") 0 0].
Definition page_b : Page := MkPage 100 120 [Layer (Stream "b") 0 0].
Definition page_c : Page := MkPage 300 400 [Layer (Stream "c") 0 0].
Definition content : list Page := [page_a; page_b; page_c].

(** A PyPDF2 whose merges always work. *)
Definition merge_ok (_ _ : Page) : bool := false.
Definition translated_merge_ok (_ _ : Page) (_ _ : float) : bool := false.

(** One whose translated merge never works, and whose plain merge
    refuses an overlay wider than the page under it. *)
Definition merge_narrow (page page2 : Page) : bool :=
  (mediabox_width page <? mediabox_width page2)%float.
Definition translated_merge_never (_ _ : Page) (_ _ : float) : bool := true.

(** One whose plain merge never works either. *)
Definition merge_never (_ _ : Page) : bool := true.

End Sample.

(** * Proofs *)

(** ** Decimal strings *)

Lemma digit_cases d : 0 <= d < 10 ->
  d = 0 \/ d = 1 \/ d = 2 \/ d = 3 \/ d = 4 \/
  d = 5 \/ d = 6 \/ d = 7 \/ d = 8 \/ d = 9.
Proof. lia. Qed.

Ltac each_digit d H :=
  destruct (digit_cases d H) as [-> | [-> | [-> | [-> | [-> |
            [-> | [-> | [-> | [-> | ->]]]]]]]]].

Lemma is_digit_digit_char d : 0 <= d < 10 -> is_digit (digit_char d) = true.
Proof. intros H. each_digit d H; reflexivity. Qed.

Lemma digit_value_digit_char d : 0 <= d < 10 -> digit_value (digit_char d) = d.
Proof. intros H. each_digit d H; reflexivity. Qed.

Lemma digit_char_nonzero d : 1 <= d < 10 -> digit_char d <> "0"%char.
Proof.
  intros H. assert (H' : 0 <= d < 10) by lia.
  each_digit d H'; try discriminate. lia.
Qed.

Lemma mod10_range n : 0 <= n mod 10 < 10.
Proof. apply Z.mod_pos_bound. lia. Qed.

Lemma all_digits_digits_acc fuel : forall n acc,
  all_digits acc = true -> all_digits (digits_acc fuel n acc) = true.
Proof.
  induction fuel as [| fuel IH]; intros n acc Hacc;
    cbn [digits_acc all_digits].
  - rewrite is_digit_digit_char by apply mod10_range. exact Hacc.
  - destruct (n <? 10).
    + cbn [all_digits].
      rewrite is_digit_digit_char by apply mod10_range. exact Hacc.
    + apply IH. cbn [all_digits].
      rewrite is_digit_digit_char by apply mod10_range. exact Hacc.
Qed.

(** The digits of [n] read back as [n], whatever was read before them and
    whatever follows. *)
Lemma read_digits_digits_acc fuel : forall n,
  0 <= n <= Z.of_nat fuel ->
  exists k, forall a acc,
    read_digits a (digits_acc fuel n acc) = read_digits (a * k + n) acc.
Proof.
  induction fuel as [| fuel IH]; intros n Hn.
  - exists 10. intros a acc. cbn [digits_acc read_digits].
    rewrite digit_value_digit_char by apply mod10_range.
    rewrite Z.mod_small by lia. f_equal. lia.
  - destruct (Z.ltb_spec n 10) as [Hlt | Hge].
    + exists 10. intros a acc. cbn [digits_acc].
      destruct (Z.ltb_spec n 10); [| lia]. cbn [read_digits].
      rewrite digit_value_digit_char by apply mod10_range.
      rewrite Z.mod_small by lia. f_equal. lia.
    + destruct (IH (n / 10)) as [k Hk].
      { split; [apply Z.div_pos; lia |].
        assert (n / 10 < n) by (apply Z.div_lt; lia). lia. }
      exists (10 * k). intros a acc. cbn [digits_acc].
      destruct (Z.ltb_spec n 10); [lia |].
      rewrite Hk. cbn [read_digits].
      rewrite digit_value_digit_char by apply mod10_range.
      f_equal. pose proof (Z.div_mod n 10). lia.
Qed.

Lemma first_char_digits_acc fuel : forall n acc,
  1 <= n <= Z.of_nat fuel ->
  exists c, first_char (digits_acc fuel n acc) = Some c /\ c <> "0"%char.
Proof.
  induction fuel as [| fuel IH]; intros n acc Hn; [lia |].
  cbn [digits_acc]. destruct (Z.ltb_spec n 10) as [Hlt | Hge].
  - exists (digit_char (n mod 10)). split; [reflexivity |].
    rewrite Z.mod_small by lia. apply digit_char_nonzero. lia.
  - apply IH. split.
    + apply Z.div_le_lower_bound; lia.
    + assert (n / 10 < n) by (apply Z.div_lt; lia). lia.
Qed.

(** For a positive number [str] gives digits only, the first of them not
    a zero, and they read back as the number. *)
Lemma str_plain_decimal n : 1 <= n ->
  all_digits (str n) = true /\
  (exists c, first_char (str n) = Some c /\ c <> "0"%char) /\
  read_digits 0 (str n) = n.
Proof.
  intros Hn. unfold str. destruct (Z.ltb_spec n 0); [lia |].
  unfold digits. split; [| split].
  - apply all_digits_digits_acc. reflexivity.
  - apply first_char_digits_acc. lia.
  - destruct (read_digits_digits_acc (Z.to_nat n) n) as [k Hk]; [lia |].
    rewrite Hk. cbn [read_digits]. lia.
Qed.

(** ** The store *)

Lemma lookup_app_at {A} (l1 l2 : list A) (i : nat) :
  (l1 ++ l2) !! (length l1 + i)%nat = l2 !! i.
Proof.
  rewrite lookup_app_r by lia. f_equal. lia.
Qed.

Lemma insert_snoc {A} (l : list A) (a x : A) :
  <[length l := x]> (l ++ [a]) = l ++ [x].
Proof.
  rewrite <- (Nat.add_0_r (length l)) at 1. rewrite insert_app_r.
  reflexivity.
Qed.

Lemma lookup_snoc {A} (l : list A) (a : A) : (l ++ [a]) !! length l = Some a.
Proof. apply list_lookup_middle. reflexivity. Qed.

Lemma seq_lookup_app {A} (l2 : list A) : forall l1 : list A,
  Forall2 (fun r p => (l1 ++ l2) !! r = Some p)
    (seq (length l1) (length l2)) l2.
Proof.
  induction l2 as [| p l2 IH]; intros l1; cbn [length seq]; constructor.
  - apply list_lookup_middle. reflexivity.
  - specialize (IH (l1 ++ [p])).
    rewrite length_app, <- app_assoc in IH. cbn [length app] in IH.
    replace (length l1 + 1)%nat with (S (length l1)) in IH by lia.
    exact IH.
Qed.

Lemma get_ok h r p : h !! r = Some p -> get r h = (Ok p, h).
Proof. intros E. unfold get. rewrite E. reflexivity. Qed.

Lemma reload_ok h template p :
  h !! template = Some p -> reload template h = (Ok (length h), h ++ [p]).
Proof.
  intros E. unfold reload, bind. rewrite (get_ok _ _ _ E). reflexivity.
Qed.

Lemma new_pages_ok ps : forall h,
  new_pages ps h = (Ok (seq (length h) (length ps)), h ++ ps).
Proof.
  induction ps as [| p ps IH]; intros h; cbn [new_pages].
  - unfold ret. rewrite app_nil_r. reflexivity.
  - unfold bind, new_page. rewrite IH. unfold ret.
    rewrite length_app, <- app_assoc. cbn [length seq app].
    replace (length h + 1)%nat with (S (length h)) by lia. reflexivity.
Qed.

Lemma PdfReader_Pdf ps h :
  PdfReader (Pdf ps) h = (Ok (PageList (seq (length h) (length ps))), h ++ ps).
Proof.
  unfold PdfReader, bind. rewrite new_pages_ok. reflexivity.
Qed.

Lemma PdfReader_Encrypted h : PdfReader Encrypted h = (Ok NoPageList, h).
Proof. reflexivity. Qed.

Lemma pages_of_PageList rs h : pages_of (PageList rs) h = (Ok rs, h).
Proof. reflexivity. Qed.

Lemma pages_of_NoPageList h : pages_of NoPageList h = (Raise, h).
Proof. reflexivity. Qed.

Lemma write_ok h : forall writer ps,
  Forall2 (fun r p => h !! r = Some p) writer ps ->
  write writer h = (Ok ps, h).
Proof.
  intros writer ps F. induction F as [| r p rs ps E _ IH]; cbn [write].
  - reflexivity.
  - unfold bind. rewrite (get_ok _ _ _ E), IH. reflexivity.
Qed.

Section Refinement.

Variable merge_raises : Page -> Page -> bool.
Variable translated_merge_raises : Page -> Page -> float -> float -> bool.
Variables front_x front_y : float.
Variable start_num : Z.
Variables x_pos y_pos : float.

Local Abbreviation merge_page' := (merge_page merge_raises).
Local Abbreviation merge_translated_page' :=
  (merge_translated_page translated_merge_raises).
Local Abbreviation compose_front' :=
  (compose_front merge_raises translated_merge_raises).
Local Abbreviation compose_back' :=
  (compose_back merge_raises translated_merge_raises).
Local Abbreviation front_page' :=
  (front_page merge_raises translated_merge_raises front_x front_y).
Local Abbreviation stamp' := (stamp x_pos y_pos).
Local Abbreviation back_page' :=
  (back_page merge_raises translated_merge_raises x_pos y_pos).
Local Abbreviation assemble' :=
  (assemble merge_raises translated_merge_raises front_x front_y
     x_pos y_pos).
Local Abbreviation rounds' :=
  (rounds merge_raises translated_merge_raises front_x front_y
     x_pos y_pos).
Local Abbreviation loop_body' :=
  (loop_body merge_raises translated_merge_raises front_x front_y
     x_pos y_pos).
Local Abbreviation for_pages' :=
  (for_pages merge_raises translated_merge_raises front_x front_y
     x_pos y_pos).

Local Abbreviation create_pdf' :=
  (create_pdf merge_raises translated_merge_raises front_x front_y
     start_num x_pos y_pos).
Local Abbreviation run' :=
  (run merge_raises translated_merge_raises front_x front_y
     start_num x_pos y_pos).

Lemma merge_page_run h page page2 p p2 :
  h !! page = Some p -> h !! page2 = Some p2 ->
  merge_page' page page2 h =
    if merge_raises p p2 then (Raise, h)
    else (Ok tt, <[page := merged p p2]> h).
Proof.
  intros E E2. unfold merge_page, bind.
  rewrite (get_ok _ _ _ E), (get_ok _ _ _ E2).
  destruct (merge_raises p p2); reflexivity.
Qed.

Lemma merge_translated_page_run h page page2 p p2 tx ty :
  h !! page = Some p -> h !! page2 = Some p2 ->
  merge_translated_page' page page2 tx ty h =
    if translated_merge_raises p p2 tx ty then (Raise, h)
    else (Ok tt, <[page := merged_translated p p2 tx ty]> h).
Proof.
  intros E E2. unfold merge_translated_page, bind.
  rewrite (get_ok _ _ _ E), (get_ok _ _ _ E2).
  destruct (translated_merge_raises p p2 tx ty); reflexivity.
Qed.

(** The front ladder (lines 84-90) leaves the composite in place of the
    page it was called on, and never raises. *)
Lemma front_ladder h page page2 p p2 fx fy :
  h !! page = Some p -> h !! page2 = Some p2 ->
  try_except (merge_translated_page' page page2 fx fy)
    (try_except (merge_page' page page2) (ret tt)) h
  = (Ok tt, <[page := compose_front' p p2 fx fy]> h).
Proof.
  intros E E2. unfold try_except, compose_front.
  rewrite (merge_translated_page_run _ _ _ _ _ _ _ E E2).
  destruct (translated_merge_raises p p2 fx fy); [| reflexivity].
  rewrite (merge_page_run _ _ _ _ _ E E2).
  destruct (merge_raises p p2); [| reflexivity].
  unfold ret. rewrite list_insert_id by exact E. reflexivity.
Qed.

(** The back ladder (lines 118-124). *)
Lemma back_ladder h page page2 p p2 :
  h !! page = Some p -> h !! page2 = Some p2 ->
  try_except (merge_page' page page2)
    (try_except (merge_translated_page' page page2 0 0) (ret tt)) h
  = (Ok tt, <[page := compose_back' p p2]> h).
Proof.
  intros E E2. unfold try_except, compose_back.
  rewrite (merge_page_run _ _ _ _ _ E E2).
  destruct (merge_raises p p2); [| reflexivity].
  rewrite (merge_translated_page_run _ _ _ _ _ _ _ E E2).
  destruct (translated_merge_raises p p2 0 0); [| reflexivity].
  unfold ret. rewrite list_insert_id by exact E. reflexivity.
Qed.

(** One round: three new objects at the end of the store, nothing else
    touched; the writer gets the first and the third. *)
Lemma loop_body_run h master_front master_back page writer number mf mb p :
  h !! master_front = Some mf ->
  h !! master_back = Some mb ->
  h !! page = Some p ->
  loop_body' master_front master_back page writer number h =
    (Ok (writer ++ [length h; (length h + 2)%nat], number + 1),
     h ++ [front_page' mf p; stamp' mb number; back_page' mb number]).
Proof.
  intros Ef Eb Ep. unfold loop_body, bind.
  rewrite (reload_ok _ _ _ Ef).
  rewrite (get_ok _ _ mf) by (apply lookup_app_l_Some; exact Ef).
  rewrite (get_ok _ _ p) by (apply lookup_app_l_Some; exact Ep).
  rewrite (front_ladder _ _ _ mf p)
    by (apply lookup_snoc || (apply lookup_app_l_Some; exact Ep)).
  rewrite insert_snoc.
  rewrite (get_ok _ _ mb) by (apply lookup_app_l_Some; exact Eb).
  unfold canvas_page, new_page.
  rewrite (reload_ok _ _ mb)
    by (do 2 apply lookup_app_l_Some; exact Eb).
  rewrite (back_ladder _ _ _ mb (stamp' mb number))
    by (apply lookup_snoc
        || (apply lookup_app_l_Some; apply lookup_snoc)).
  rewrite insert_snoc. unfold ret.
  rewrite !length_app. cbn [length]. rewrite <- !app_assoc. cbn [app].
  replace (length h + 1 + 1)%nat with (length h + 2)%nat by lia.
  reflexivity.
Qed.

(** The whole loop.  The store only grows: by [rounds]. *)
Lemma for_pages_run master_front master_back mf mb content :
  forall pages writer number h,
  h !! master_front = Some mf ->
  h !! master_back = Some mb ->
  Forall2 (fun r p => h !! r = Some p) pages content ->
  for_pages' master_front master_back pages writer number h =
    (Ok (writer ++ round_refs (length h) (length content)),
     h ++ rounds' mf mb content number).
Proof.
  induction content as [| p content IH];
    intros pages writer number h Ef Eb F; inversion F as [| r ? rs ? Ep F']; subst.
  - cbn. unfold ret. rewrite !app_nil_r. reflexivity.
  - cbn [for_pages rounds round_refs length]. unfold bind.
    rewrite (loop_body_run _ _ _ _ _ _ mf mb p Ef Eb Ep). cbn [fst snd].
    rewrite (IH rs); cycle 1.
    + apply lookup_app_l_Some. exact Ef.
    + apply lookup_app_l_Some. exact Eb.
    + eapply Forall2_impl; [exact F' |].
      intros ? ? E. apply lookup_app_l_Some. exact E.
    + rewrite length_app, <- !app_assoc. reflexivity.
Qed.

(** Every reference the writer holds points at the page [assemble]
    expects, once the loop is over. *)
Lemma round_refs_assemble mf mb content : forall number h,
  Forall2 (fun r p => (h ++ rounds' mf mb content number) !! r = Some p)
    (round_refs (length h) (length content))
    (assemble' mf mb content number).
Proof.
  induction content as [| p content IH]; intros number h;
    cbn [rounds assemble round_refs length]; [constructor |].
  constructor; [| constructor].
  - apply list_lookup_middle. reflexivity.
  - rewrite lookup_app_at. reflexivity.
  - specialize (IH (number + 1)
      (h ++ [front_page' mf p; stamp' mb number; back_page' mb number])).
    rewrite length_app, <- app_assoc in IH. exact IH.
Qed.

(** With two master pages or more the click goes through, and the
    store ends as the uploaded pages followed by the rounds. *)
Lemma create_pdf_run mf mb rest content :
  create_pdf' (Pdf (mf :: mb :: rest)) (Pdf content) [] =
    (Ok (Download (assemble' mf mb content start_num)),
     ((mf :: mb :: rest) ++ content) ++ rounds' mf mb content start_num).
Proof.
  unfold create_pdf, bind. rewrite !PdfReader_Pdf.
  unfold pages_of, index, ret.
  rewrite length_seq. cbn [length Nat.ltb Nat.leb app seq].
  cbn [lookup list_lookup].
  pose proof (seq_lookup_app content (mf :: mb :: rest)) as F.
  cbn [length app] in F.
  rewrite (for_pages_run 0%nat 1%nat mf mb content _ _ _
             (mf :: mb :: rest ++ content) eq_refl eq_refl F).
  pose proof (round_refs_assemble mf mb content start_num
                (mf :: mb :: rest ++ content)) as W.
  cbn [app] in W |- *. rewrite (write_ok _ _ _ W). reflexivity.
Qed.

Lemma run_assemble mf mb rest content :
  run' (Pdf (mf :: mb :: rest)) (Pdf content) =
    Download (assemble' mf mb content start_num).
Proof.
  unfold run. cbn [uploaded negb orb]. rewrite create_pdf_run.
  reflexivity.
Qed.

(** With fewer than two master pages the click stops at line 56, the
    store holding the uploaded pages and nothing else. *)
Lemma create_pdf_short master content :
  (length master < 2)%nat ->
  create_pdf' (Pdf master) (Pdf content) [] =
    (Ok (Error "Master PDF must contain at least 2 pages."),
     master ++ content).
Proof.
  intros Hlen. unfold create_pdf, bind. rewrite !PdfReader_Pdf.
  unfold pages_of, ret. rewrite length_seq. cbn [length app].
  destruct (Nat.ltb_spec (length master) 2); [reflexivity | lia].
Qed.

Lemma length_assemble mf mb content : forall number,
  length (assemble' mf mb content number) = (2 * length content)%nat.
Proof.
  induction content as [| p content IH]; intros number;
    cbn [assemble length]; [reflexivity |].
  rewrite IH. lia.
Qed.

Lemma assemble_lookup mf mb content : forall number i p,
  content !! i = Some p ->
  assemble' mf mb content number !! (2 * i)%nat = Some (front_page' mf p)
  /\ assemble' mf mb content number !! (2 * i + 1)%nat =
       Some (back_page' mb (number + Z.of_nat i)).
Proof.
  induction content as [| q content IH]; intros number i p E;
    [discriminate |].
  destruct i as [| i]; cbn [assemble].
  - injection E as ->. cbn. rewrite Z.add_0_r. split; reflexivity.
  - cbn [lookup list_lookup] in E.
    destruct (IH (number + 1) i p E) as [Hf Hb].
    replace (2 * S i)%nat with (S (S (2 * i))) by lia.
    replace (S (S (2 * i)) + 1)%nat with (S (S (2 * i + 1))) by lia.
    cbn [lookup list_lookup].
    replace (number + Z.of_nat (S i)) with (number + 1 + Z.of_nat i)
      by lia.
    split; assumption.
Qed.

End Refinement.

(** ** References handed to the writer *)

Lemma round_refs_bounds n : forall base,
  Forall (fun r => (base <= r < base + 3 * n)%nat) (round_refs base n).
Proof.
  induction n as [| n IH]; intros base; cbn [round_refs]; [constructor |].
  constructor; [lia |]. constructor; [lia |].
  eapply Forall_impl; [apply IH |]. cbn. intros r ?. lia.
Qed.

Lemma round_refs_NoDup n : forall base, NoDup (round_refs base n).
Proof.
  induction n as [| n IH]; intros base; cbn [round_refs]; [constructor |].
  pose proof (round_refs_bounds n (base + 3)) as B.
  rewrite Forall_forall in B.
  constructor; [| constructor; [| apply IH]].
  - rewrite elem_of_cons. intros [? | Hin]; [lia |].
    apply B in Hin. lia.
  - intros Hin. apply B in Hin. lia.
Qed.

Lemma Forall_is_Some_lookup (h : list Page) (pages : list ref) :
  Forall (fun r => is_Some (h !! r)) pages ->
  exists content, Forall2 (fun r p => h !! r = Some p) pages content.
Proof.
  induction 1 as [| r rs [p E] _ [ps IH]].
  - exists []. constructor.
  - exists (p :: ps). constructor; assumption.
Qed.

Lemma two_pages (master : list Page) :
  (2 <= length master)%nat -> exists mf mb rest, master = mf :: mb :: rest.
Proof.
  destruct master as [| mf [| mb rest]]; cbn [length]; intros H;
    [lia | lia |]. exists mf, mb, rest. reflexivity.
Qed.

(** * The claims *)

(** C1.  With a master of at least two pages and any content document of
    N pages (N = 0 included) the click ends in a download of exactly 2 N
    pages: page [2 i] is content page [i] composed onto the front
    template, page [2 i + 1] the back template with the number of round
    [i], for every [i] below N. *)
Theorem C1_output_alternates
    (merge_raises : Page -> Page -> bool)
    (translated_merge_raises : Page -> Page -> float -> float -> bool)
    (front_x front_y : float) (start_num : Z) (x_pos y_pos : float)
    (master content : list Page) :
  (2 <= length master)%nat ->
  exists mf mb out,
    master !! 0%nat = Some mf /\ master !! 1%nat = Some mb /\
    run merge_raises translated_merge_raises front_x front_y start_num
      x_pos y_pos (Pdf master) (Pdf content) = Download out /\
    length out = (2 * length content)%nat /\
    (content = [] -> out = []) /\
    forall i p, content !! i = Some p ->
      out !! (2 * i)%nat =
        Some (front_page merge_raises translated_merge_raises
                front_x front_y mf p) /\
      out !! (2 * i + 1)%nat =
        Some (back_page merge_raises translated_merge_raises x_pos y_pos
                mb (start_num + Z.of_nat i)).
Proof.
  intros Hlen. destruct (two_pages master Hlen) as (mf & mb & rest & ->).
  exists mf, mb. eexists. split; [reflexivity |]. split; [reflexivity |].
  split; [apply run_assemble |]. split; [apply length_assemble |].
  split; [intros ->; reflexivity |].
  intros i p E. apply assemble_lookup. exact E.
Qed.

Lemma C1_output_alternates_witness :
  (2 <= length Sample.master)%nat /\
  exists mf mb out,
    Sample.master !! 0%nat = Some mf /\ Sample.master !! 1%nat = Some mb /\
    run Sample.merge_ok Sample.translated_merge_ok (-1) (-1) 5 50 50
      (Pdf Sample.master) (Pdf Sample.content) = Download out /\
    length out = (2 * length Sample.content)%nat /\
    (Sample.content = [] -> out = []) /\
    forall i p, Sample.content !! i = Some p ->
      out !! (2 * i)%nat =
        Some (front_page Sample.merge_ok Sample.translated_merge_ok
                (-1) (-1) mf p) /\
      out !! (2 * i + 1)%nat =
        Some (back_page Sample.merge_ok Sample.translated_merge_ok 50 50
                mb (5 + Z.of_nat i)).
Proof.
  split; [simpl; lia |].
  apply (C1_output_alternates Sample.merge_ok Sample.translated_merge_ok
           (-1) (-1) 5 50 50 Sample.master Sample.content).
  simpl; lia.
Defined.

(** C2, as stated, fails: when both merges of the back composite raise,
    the back page is the bare back template and no number is on it.  On
    the sample job, with a PyPDF2 whose merges all raise, each of the
    three back pages is the back template, which holds no text. *)
Lemma C2_counterexample :
  (2 <= length Sample.master)%nat /\
  1 <= 5 /\
  exists out,
    run Sample.merge_never Sample.translated_merge_never (-1) (-1) 5
      50 50 (Pdf Sample.master) (Pdf Sample.content) = Download out /\
    out !! 1%nat = Some Sample.back /\
    out !! 3%nat = Some Sample.back /\
    out !! 5%nat = Some Sample.back /\
    Forall (fun l => forall font size x y text,
              graphic_of l <> DrawString font size x y text)
      (contents Sample.back).
Proof.
  split; [simpl; lia |]. split; [lia |].
  eexists. split; [reflexivity |].
  repeat (split; [reflexivity |]).
  repeat constructor. intros font size x y text. discriminate.
Qed.

(** C2, amended.  The stamp drawn for back page [i] carries
    [str (start_num + i)]: the numbers go up by one per round from
    [start_num], none skipped, none used twice.  The string consists of
    decimal digits only (no sign, no separator), does not begin with a
    zero, and reads back as the number ([start_num] is at least 1, the
    widget's [min_value]).  The stamp is on back page [i] when one of the
    two merges of the back composite does not raise; when both raise,
    back page [i] is the bare back template. *)
Theorem C2_numbering
    (merge_raises : Page -> Page -> bool)
    (translated_merge_raises : Page -> Page -> float -> float -> bool)
    (front_x front_y : float) (start_num : Z) (x_pos y_pos : float)
    (master content : list Page) :
  (2 <= length master)%nat ->
  1 <= start_num ->
  exists mb out,
    master !! 1%nat = Some mb /\
    run merge_raises translated_merge_raises front_x front_y start_num
      x_pos y_pos (Pdf master) (Pdf content) = Download out /\
    forall i, (i < length content)%nat ->
      let number := start_num + Z.of_nat i in
      let text := DrawString "Helvetica" 20 x_pos y_pos (str number) in
      let s :=
        MkPage (mediabox_width mb) (mediabox_height mb)
          [Layer text 0 0] in
      out !! (2 * i + 1)%nat =
        Some (compose_back merge_raises translated_merge_raises mb s) /\
      (merge_raises mb s = false \/
       translated_merge_raises mb s 0%float 0%float = false ->
       out !! (2 * i + 1)%nat =
         Some (MkPage (mediabox_width mb) (mediabox_height mb)
                 (contents mb ++ [Layer text 0 0]))) /\
      (merge_raises mb s = true /\
       translated_merge_raises mb s 0%float 0%float = true ->
       out !! (2 * i + 1)%nat = Some mb) /\
      all_digits (str number) = true /\
      (exists c, first_char (str number) = Some c /\ c <> "0"%char) /\
      read_digits 0 (str number) = number.
Proof.
  intros Hlen Hstart.
  destruct (two_pages master Hlen) as (mf & mb & rest & ->).
  exists mb. eexists. split; [reflexivity |].
  split; [apply run_assemble |].
  intros i Hi number text s.
  destruct (lookup_lt_is_Some_2 content i Hi) as [p E].
  destruct (assemble_lookup merge_raises translated_merge_raises
              front_x front_y x_pos y_pos mf mb content start_num i p E)
    as [_ Hb].
  split; [exact Hb |].
  split; [| split; [| apply str_plain_decimal; unfold number; lia]].
  - intros Hsome. rewrite Hb. unfold back_page, compose_back.
    change (stamp x_pos y_pos mb (start_num + Z.of_nat i)) with s.
    destruct (merge_raises mb s); [| reflexivity].
    destruct Hsome as [Hm | Ht]; [discriminate |].
    rewrite Ht. reflexivity.
  - intros [Hm Ht]. rewrite Hb. unfold back_page, compose_back.
    change (stamp x_pos y_pos mb (start_num + Z.of_nat i)) with s.
    rewrite Hm, Ht. reflexivity.
Qed.

Lemma C2_numbering_witness :
  (2 <= length Sample.master)%nat /\
  1 <= 5 /\
  exists mb out,
    Sample.master !! 1%nat = Some mb /\
    run Sample.merge_narrow Sample.translated_merge_never (-1) (-1) 5
      50 50 (Pdf Sample.master) (Pdf Sample.content) = Download out /\
    forall i, (i < length Sample.content)%nat ->
      let number := 5 + Z.of_nat i in
      let text := DrawString "Helvetica" 20 50 50 (str number) in
      let s :=
        MkPage (mediabox_width mb) (mediabox_height mb)
          [Layer text 0 0] in
      out !! (2 * i + 1)%nat =
        Some (compose_back Sample.merge_narrow
                Sample.translated_merge_never mb s) /\
      (Sample.merge_narrow mb s = false \/
       Sample.translated_merge_never mb s 0%float 0%float = false ->
       out !! (2 * i + 1)%nat =
         Some (MkPage (mediabox_width mb) (mediabox_height mb)
                 (contents mb ++ [Layer text 0 0]))) /\
      (Sample.merge_narrow mb s = true /\
       Sample.translated_merge_never mb s 0%float 0%float = true ->
       out !! (2 * i + 1)%nat = Some mb) /\
      all_digits (str number) = true /\
      (exists c, first_char (str number) = Some c /\ c <> "0"%char) /\
      read_digits 0 (str number) = number.
Proof.
  split; [simpl; lia |]. split; [lia |].
  apply (C2_numbering Sample.merge_narrow Sample.translated_merge_never
           (-1) (-1) 5 50 50 Sample.master Sample.content);
    [simpl; lia | lia].
Defined.

(** C3.  With both front coordinates at -1 the translated merge of round
    [i] is asked for ((mw - pw) / 2, (mh - ph) / 2), [mw], [mh] being the
    front template's media box and [pw], [ph] that of content page [i]
    itself. *)
Theorem C3_auto_center
    (merge_raises : Page -> Page -> bool)
    (translated_merge_raises : Page -> Page -> float -> float -> bool)
    (start_num : Z) (x_pos y_pos : float)
    (master content : list Page) :
  (2 <= length master)%nat ->
  exists mf out,
    master !! 0%nat = Some mf /\
    run merge_raises translated_merge_raises (-1) (-1) start_num
      x_pos y_pos (Pdf master) (Pdf content) = Download out /\
    forall i p, content !! i = Some p ->
      let cx := ((mediabox_width mf - mediabox_width p) / 2)%float in
      let cy := ((mediabox_height mf - mediabox_height p) / 2)%float in
      place (-1) (mediabox_width mf) (mediabox_width p) = cx /\
      place (-1) (mediabox_height mf) (mediabox_height p) = cy /\
      out !! (2 * i)%nat =
        Some (compose_front merge_raises translated_merge_raises
                mf p cx cy) /\
      (translated_merge_raises mf p cx cy = false ->
       out !! (2 * i)%nat = Some (merged_translated mf p cx cy)).
Proof.
  intros Hlen. destruct (two_pages master Hlen) as (mf & mb & rest & ->).
  exists mf. eexists. split; [reflexivity |].
  split; [apply run_assemble |].
  intros i p E cx cy.
  destruct (assemble_lookup merge_raises translated_merge_raises (-1) (-1)
              x_pos y_pos mf mb content start_num i p E) as [Hf _].
  split; [reflexivity |]. split; [reflexivity |].
  split; [exact Hf |].
  intros Hok. rewrite Hf. unfold front_page, compose_front.
  change (place (-1) (mediabox_width mf) (mediabox_width p)) with cx.
  change (place (-1) (mediabox_height mf) (mediabox_height p)) with cy.
  rewrite Hok. reflexivity.
Qed.

Lemma C3_auto_center_witness :
  (2 <= length Sample.master)%nat /\
  exists mf out,
    Sample.master !! 0%nat = Some mf /\
    run Sample.merge_ok Sample.translated_merge_ok (-1) (-1) 5
      50 50 (Pdf Sample.master) (Pdf Sample.content) = Download out /\
    forall i p, Sample.content !! i = Some p ->
      let cx := ((mediabox_width mf - mediabox_width p) / 2)%float in
      let cy := ((mediabox_height mf - mediabox_height p) / 2)%float in
      place (-1) (mediabox_width mf) (mediabox_width p) = cx /\
      place (-1) (mediabox_height mf) (mediabox_height p) = cy /\
      out !! (2 * i)%nat =
        Some (compose_front Sample.merge_ok Sample.translated_merge_ok
                mf p cx cy) /\
      (Sample.translated_merge_ok mf p cx cy = false ->
       out !! (2 * i)%nat = Some (merged_translated mf p cx cy)).
Proof.
  split; [simpl; lia |].
  apply (C3_auto_center Sample.merge_ok Sample.translated_merge_ok
           5 50 50 Sample.master Sample.content).
  simpl; lia.
Defined.

(** The scenario of the design: 180 x 280 on 200 x 300 goes to (10, 10). *)
Example auto_center_sample :
  place (-1) 200 180 = 10%float /\ place (-1) 300 280 = 10%float.
Proof. split; reflexivity. Qed.

(** A negative float does not pass the test [>= 0]. *)
Lemma negative_not_geb_zero (x : float) :
  (x <? 0)%float = true -> (0 <=? x)%float = false.
Proof.
  rewrite ltb_spec, leb_spec.
  change (Prim2SF 0) with (S754_zero false).
  destruct (Prim2SF x) as [s | s | | s m e]; cbn.
  - discriminate.
  - destruct s; [reflexivity | discriminate].
  - discriminate.
  - destruct s; [reflexivity | discriminate].
Qed.

(** C4, as stated, fails: -2 is not the value -1, yet a front coordinate
    of -2 is not used as it is.  On the sample master the 180 x 280 page
    is placed at (10, 10): these are the offsets the translated merge is
    called with, whatever PyPDF2 then does, and with merges that work the
    page lands there, not at (-2, -2). *)
Lemma C4_counterexample :
  (-2)%float <> (-1)%float /\
  place (-2) 200 180 = 10%float /\
  place (-2) 300 280 = 10%float /\
  10%float <> (-2)%float /\
  (forall merge_raises translated_merge_raises,
     run merge_raises translated_merge_raises (-2) (-2) 1 50 50
       (Pdf Sample.master) (Pdf [Sample.page_a])
     = Download
         [compose_front merge_raises translated_merge_raises
            Sample.front Sample.page_a 10 10;
          back_page merge_raises translated_merge_raises 50 50
            Sample.back 1]) /\
  exists out,
    run Sample.merge_ok Sample.translated_merge_ok (-2) (-2) 1 50 50
      (Pdf Sample.master) (Pdf [Sample.page_a]) = Download out /\
    out !! 0%nat =
      Some (merged_translated Sample.front Sample.page_a 10 10) /\
    out !! 0%nat <>
      Some (merged_translated Sample.front Sample.page_a (-2) (-2)).
Proof.
  assert (Hne : forall a b : float, (a =? b)%float = false ->
                                    (b =? b)%float = true -> a <> b).
  { intros a b Hab Hbb E. rewrite E in Hab. congruence. }
  split; [apply Hne; reflexivity |].
  split; [reflexivity |]. split; [reflexivity |].
  split; [apply Hne; reflexivity |].
  split.
  - intros merge_raises translated_merge_raises.
    unfold Sample.master. rewrite run_assemble. reflexivity.
  - eexists. split; [reflexivity |]. split; [reflexivity |].
    intros E.
    apply (f_equal (fun o => match o with
                             | Some (MkPage _ _ [_; l]) => dx l
                             | _ => 0%float
                             end)) in E.
    cbn in E. revert E. apply Hne; reflexivity.
Qed.

(** C4, amended.  Each front coordinate is resolved on its own.  A
    coordinate that is not negative ([>= 0]) is used as it is, whatever
    the sizes of the template and of the content page.  A negative
    coordinate, -1 or any other, is replaced by the centring offset of its
    axis.  The resolved pair is what the translated merge of the round is
    called with. *)
Theorem C4_front_placement
    (merge_raises : Page -> Page -> bool)
    (translated_merge_raises : Page -> Page -> float -> float -> bool)
    (front_x front_y : float) (start_num : Z) (x_pos y_pos : float)
    (master content : list Page) :
  (2 <= length master)%nat ->
  exists mf out,
    master !! 0%nat = Some mf /\
    run merge_raises translated_merge_raises front_x front_y start_num
      x_pos y_pos (Pdf master) (Pdf content) = Download out /\
    forall i p, content !! i = Some p ->
      let fx := place front_x (mediabox_width mf) (mediabox_width p) in
      let fy := place front_y (mediabox_height mf) (mediabox_height p) in
      out !! (2 * i)%nat =
        Some (compose_front merge_raises translated_merge_raises
                mf p fx fy) /\
      (translated_merge_raises mf p fx fy = false ->
       out !! (2 * i)%nat = Some (merged_translated mf p fx fy)) /\
      ((0 <=? front_x)%float = true -> fx = front_x) /\
      ((0 <=? front_y)%float = true -> fy = front_y) /\
      ((front_x <? 0)%float = true ->
       fx = ((mediabox_width mf - mediabox_width p) / 2)%float) /\
      ((front_y <? 0)%float = true ->
       fy = ((mediabox_height mf - mediabox_height p) / 2)%float) /\
      ((0 <=? front_x)%float = true -> (0 <=? front_y)%float = true ->
       out !! (2 * i)%nat =
         Some (compose_front merge_raises translated_merge_raises
                 mf p front_x front_y) /\
       (translated_merge_raises mf p front_x front_y = false ->
        out !! (2 * i)%nat =
          Some (merged_translated mf p front_x front_y))).
Proof.
  intros Hlen.
  destruct (two_pages master Hlen) as (mf & mb & rest & ->).
  exists mf. eexists. split; [reflexivity |].
  split; [apply run_assemble |].
  intros i p E fx fy.
  destruct (assemble_lookup merge_raises translated_merge_raises
              front_x front_y x_pos y_pos mf mb content start_num i p E)
    as [Hf _].
  assert (Hfp : front_page merge_raises translated_merge_raises
                  front_x front_y mf p
                = compose_front merge_raises translated_merge_raises
                    mf p fx fy) by reflexivity.
  rewrite Hf, Hfp. clear Hf Hfp.
  assert (Hok : forall a b, translated_merge_raises mf p a b = false ->
                compose_front merge_raises translated_merge_raises
                  mf p a b = merged_translated mf p a b).
  { intros a b Hr. unfold compose_front. rewrite Hr. reflexivity. }
  assert (Px : (0 <=? front_x)%float = true -> fx = front_x).
  { intros H. unfold fx, place. rewrite H. reflexivity. }
  assert (Py : (0 <=? front_y)%float = true -> fy = front_y).
  { intros H. unfold fy, place. rewrite H. reflexivity. }
  split; [reflexivity |].
  split; [intros Hr; rewrite (Hok _ _ Hr); reflexivity |].
  split; [exact Px |]. split; [exact Py |].
  split; [| split].
  - intros H. unfold fx, place.
    rewrite (negative_not_geb_zero _ H). reflexivity.
  - intros H. unfold fy, place.
    rewrite (negative_not_geb_zero _ H). reflexivity.
  - intros Hx Hy. rewrite (Px Hx), (Py Hy).
    split; [reflexivity |].
    intros Hr. rewrite (Hok _ _ Hr). reflexivity.
Qed.

Lemma C4_front_placement_witness :
  (2 <= length Sample.master)%nat /\
  exists mf out,
    Sample.master !! 0%nat = Some mf /\
    run Sample.merge_ok Sample.translated_merge_ok 30 (-7) 5
      50 50 (Pdf Sample.master) (Pdf Sample.content) = Download out /\
    forall i p, Sample.content !! i = Some p ->
      let fx := place 30 (mediabox_width mf) (mediabox_width p) in
      let fy := place (-7) (mediabox_height mf) (mediabox_height p) in
      out !! (2 * i)%nat =
        Some (compose_front Sample.merge_ok Sample.translated_merge_ok
                mf p fx fy) /\
      (Sample.translated_merge_ok mf p fx fy = false ->
       out !! (2 * i)%nat = Some (merged_translated mf p fx fy)) /\
      ((0 <=? 30)%float = true -> fx = 30%float) /\
      ((0 <=? -7)%float = true -> fy = (-7)%float) /\
      ((30 <? 0)%float = true ->
       fx = ((mediabox_width mf - mediabox_width p) / 2)%float) /\
      (((-7) <? 0)%float = true ->
       fy = ((mediabox_height mf - mediabox_height p) / 2)%float) /\
      ((0 <=? 30)%float = true -> (0 <=? -7)%float = true ->
       out !! (2 * i)%nat =
         Some (compose_front Sample.merge_ok Sample.translated_merge_ok
                 mf p 30 (-7)) /\
       (Sample.translated_merge_ok mf p 30 (-7) = false ->
        out !! (2 * i)%nat =
          Some (merged_translated mf p 30 (-7)))).
Proof.
  split; [simpl; lia |].
  apply (C4_front_placement Sample.merge_ok Sample.translated_merge_ok
           30 (-7) 5 50 50 Sample.master Sample.content).
  simpl; lia.
Defined.

(** The four cases on the sample master and the 180 x 280 page: given
    and given, given and centred, centred and given, centred and
    centred. *)
Example front_placement_sample :
  (place 30 200 180, place 0 300 280) = (30%float, 0%float) /\
  (place 30 200 180, place (-7) 300 280) = (30%float, 10%float) /\
  (place (-0.5) 200 180, place 40 300 280) = (10%float, 40%float) /\
  (place (-2) 200 180, place (-1) 300 280) = (10%float, 10%float).
Proof. repeat split. Qed.

(** C5.  A master of fewer than two pages stops the click at the error
    message of line 56: nothing is offered for download, and the store
    holds the uploaded pages and no other page object, so no output page
    was ever started. *)
Theorem C5_short_master
    (merge_raises : Page -> Page -> bool)
    (translated_merge_raises : Page -> Page -> float -> float -> bool)
    (front_x front_y : float) (start_num : Z) (x_pos y_pos : float)
    (master content : list Page) :
  (length master < 2)%nat ->
  run merge_raises translated_merge_raises front_x front_y start_num
    x_pos y_pos (Pdf master) (Pdf content)
    = Error "Master PDF must contain at least 2 pages." /\
  (forall out,
     run merge_raises translated_merge_raises front_x front_y start_num
       x_pos y_pos (Pdf master) (Pdf content) <> Download out) /\
  snd (create_pdf merge_raises translated_merge_raises front_x front_y
         start_num x_pos y_pos (Pdf master) (Pdf content) [])
    = master ++ content.
Proof.
  intros Hlen.
  pose proof (create_pdf_short merge_raises translated_merge_raises
                front_x front_y start_num x_pos y_pos master content Hlen)
    as Hc.
  assert (Hrun : run merge_raises translated_merge_raises front_x front_y
                   start_num x_pos y_pos (Pdf master) (Pdf content)
                 = Error "Master PDF must contain at least 2 pages.").
  { unfold run. cbn [uploaded negb orb]. rewrite Hc. reflexivity. }
  split; [exact Hrun |]. split.
  - intros out. rewrite Hrun. discriminate.
  - rewrite Hc. reflexivity.
Qed.

Lemma C5_short_master_witness :
  (length [Sample.front] < 2)%nat /\
  run Sample.merge_ok Sample.translated_merge_ok (-1) (-1) 5
    50 50 (Pdf [Sample.front]) (Pdf Sample.content)
    = Error "Master PDF must contain at least 2 pages." /\
  (forall out,
     run Sample.merge_ok Sample.translated_merge_ok (-1) (-1) 5
       50 50 (Pdf [Sample.front]) (Pdf Sample.content) <> Download out) /\
  snd (create_pdf Sample.merge_ok Sample.translated_merge_ok (-1) (-1)
         5 50 50 (Pdf [Sample.front]) (Pdf Sample.content) [])
    = [Sample.front] ++ Sample.content.
Proof.
  split; [simpl; lia |].
  apply (C5_short_master Sample.merge_ok Sample.translated_merge_ok
           (-1) (-1) 5 50 50 [Sample.front] Sample.content).
  simpl; lia.
Defined.

(** C6.  Whichever merges raise, the click ends in a download of 2 N
    pages.  When the translated merge of content page [i] onto the front
    template raises, the front page is the plain merge, and the bare
    template when that raises too; the same holds for the stamp and the
    back template. *)
Theorem C6_merge_fallback
    (merge_raises : Page -> Page -> bool)
    (translated_merge_raises : Page -> Page -> float -> float -> bool)
    (front_x front_y : float) (start_num : Z) (x_pos y_pos : float)
    (master content : list Page) :
  (2 <= length master)%nat ->
  exists mf mb out,
    master !! 0%nat = Some mf /\ master !! 1%nat = Some mb /\
    run merge_raises translated_merge_raises front_x front_y start_num
      x_pos y_pos (Pdf master) (Pdf content) = Download out /\
    length out = (2 * length content)%nat /\
    forall i p, content !! i = Some p ->
      let fx := place front_x (mediabox_width mf) (mediabox_width p) in
      let fy := place front_y (mediabox_height mf) (mediabox_height p) in
      let s := stamp x_pos y_pos mb (start_num + Z.of_nat i) in
      (translated_merge_raises mf p fx fy = true ->
       (merge_raises mf p = false ->
        out !! (2 * i)%nat = Some (merged mf p)) /\
       (merge_raises mf p = true -> out !! (2 * i)%nat = Some mf)) /\
      (translated_merge_raises mb s 0%float 0%float = true ->
       (merge_raises mb s = false ->
        out !! (2 * i + 1)%nat = Some (merged mb s)) /\
       (merge_raises mb s = true -> out !! (2 * i + 1)%nat = Some mb)).
Proof.
  intros Hlen. destruct (two_pages master Hlen) as (mf & mb & rest & ->).
  exists mf, mb. eexists. split; [reflexivity |]. split; [reflexivity |].
  split; [apply run_assemble |]. split; [apply length_assemble |].
  intros i p E fx fy s.
  destruct (assemble_lookup merge_raises translated_merge_raises
              front_x front_y x_pos y_pos mf mb content start_num i p E)
    as [Hf Hb].
  rewrite Hf, Hb.
  unfold front_page, back_page, compose_front, compose_back.
  fold fx fy s. split; intros Ht; rewrite Ht.
  - split; intros Hm; rewrite Hm; reflexivity.
  - split; intros Hm; rewrite Hm; reflexivity.
Qed.

Lemma C6_merge_fallback_witness :
  (2 <= length Sample.master)%nat /\
  exists mf mb out,
    Sample.master !! 0%nat = Some mf /\ Sample.master !! 1%nat = Some mb /\
    run Sample.merge_narrow Sample.translated_merge_never (-1) (-1) 5
      50 50 (Pdf Sample.master) (Pdf Sample.content) = Download out /\
    length out = (2 * length Sample.content)%nat /\
    forall i p, Sample.content !! i = Some p ->
      let fx := place (-1) (mediabox_width mf) (mediabox_width p) in
      let fy := place (-1) (mediabox_height mf) (mediabox_height p) in
      let s := stamp 50 50 mb (5 + Z.of_nat i) in
      (Sample.translated_merge_never mf p fx fy = true ->
       (Sample.merge_narrow mf p = false ->
        out !! (2 * i)%nat = Some (merged mf p)) /\
       (Sample.merge_narrow mf p = true -> out !! (2 * i)%nat = Some mf)) /\
      (Sample.translated_merge_never mb s 0 0 = true ->
       (Sample.merge_narrow mb s = false ->
        out !! (2 * i + 1)%nat = Some (merged mb s)) /\
       (Sample.merge_narrow mb s = true ->
        out !! (2 * i + 1)%nat = Some mb)).
Proof.
  split; [simpl; lia |].
  apply (C6_merge_fallback Sample.merge_narrow
           Sample.translated_merge_never (-1) (-1) 5 50 50
           Sample.master Sample.content).
  simpl; lia.
Defined.

(** The three tiers on the sample job: pages a and b are merged
    untranslated, page c (wider than the template) is dropped and the
    bare front template is kept; the output still has six pages. *)
Example fallback_sample :
  run Sample.merge_narrow Sample.translated_merge_never (-1) (-1) 5
    50 50 (Pdf Sample.master) (Pdf Sample.content)
  = Download
      [merged Sample.front Sample.page_a;
       merged Sample.back (stamp 50 50 Sample.back 5);
       merged Sample.front Sample.page_b;
       merged Sample.back (stamp 50 50 Sample.back 6);
       Sample.front;
       merged Sample.back (stamp 50 50 Sample.back 7)].
Proof. reflexivity. Qed.

(** C7.  The loop never writes to an object that was in the store when it
    started: the store it leaves extends the one it found, so both
    templates (and every content page) are as they were, round after
    round.  Every reference the writer receives is to an object made
    during the loop, and no two of them are the same object. *)
Theorem C7_templates_untouched
    (merge_raises : Page -> Page -> bool)
    (translated_merge_raises : Page -> Page -> float -> float -> bool)
    (front_x front_y : float) (x_pos y_pos : float)
    (master_front master_back : ref) (pages writer : list ref)
    (number : Z) (h : list Page) (mf mb : Page) :
  h !! master_front = Some mf ->
  h !! master_back = Some mb ->
  Forall (fun r => is_Some (h !! r)) pages ->
  exists new h',
    for_pages merge_raises translated_merge_raises front_x front_y
      x_pos y_pos master_front master_back pages writer number h
      = (Ok (writer ++ new), h') /\
    h `prefix_of` h' /\
    h' !! master_front = Some mf /\
    h' !! master_back = Some mb /\
    length new = (2 * length pages)%nat /\
    Forall (fun r => (length h <= r < length h')%nat) new /\
    NoDup new.
Proof.
  intros Ef Eb Hp.
  destruct (Forall_is_Some_lookup h pages Hp) as [content F].
  pose proof (Forall2_length _ _ _ F) as Hlen.
  eexists. eexists. split.
  - apply (for_pages_run merge_raises translated_merge_raises
             front_x front_y x_pos y_pos
             master_front master_back mf mb content); assumption.
  - split; [apply prefix_app_r; reflexivity |].
    split; [apply lookup_app_l_Some; exact Ef |].
    split; [apply lookup_app_l_Some; exact Eb |].
    assert (Hr : forall (c : list Page) n,
              length (rounds merge_raises translated_merge_raises
                        front_x front_y x_pos y_pos mf mb c n)
              = (3 * length c)%nat).
    { induction c as [| q c IH]; intros n; cbn [rounds length];
        [reflexivity |]. rewrite IH. lia. }
    assert (Hn : forall n base, length (round_refs base n) = (2 * n)%nat).
    { induction n as [| n IH]; intros base; cbn [round_refs length];
        [reflexivity |]. rewrite IH. lia. }
    split; [rewrite Hn; lia |].
    split; [| apply round_refs_NoDup].
    rewrite length_app, Hr.
    eapply Forall_impl; [apply round_refs_bounds |].
    cbn. intros r ?. lia.
Qed.

Lemma C7_templates_untouched_witness :
  (Sample.master ++ Sample.content) !! 0%nat = Some Sample.front /\
  (Sample.master ++ Sample.content) !! 1%nat = Some Sample.back /\
  Forall (fun r => is_Some ((Sample.master ++ Sample.content) !! r))
    [2; 3; 4]%nat /\
  exists new h',
    for_pages Sample.merge_ok Sample.translated_merge_ok (-1) (-1)
      50 50 0%nat 1%nat [2; 3; 4]%nat [] 5
      (Sample.master ++ Sample.content)
      = (Ok ([] ++ new), h') /\
    (Sample.master ++ Sample.content) `prefix_of` h' /\
    h' !! 0%nat = Some Sample.front /\
    h' !! 1%nat = Some Sample.back /\
    length new = (2 * length [2; 3; 4]%nat)%nat /\
    Forall (fun r =>
              (length (Sample.master ++ Sample.content) <= r < length h')%nat)
      new /\
    NoDup new.
Proof.
  assert (Hp : Forall (fun r => is_Some ((Sample.master ++ Sample.content)
                                           !! r)) [2; 3; 4]%nat).
  { repeat constructor; eexists; reflexivity. }
  split; [reflexivity |]. split; [reflexivity |]. split; [exact Hp |].
  apply (C7_templates_untouched Sample.merge_ok Sample.translated_merge_ok
           (-1) (-1) 50 50 0%nat 1%nat [2; 3; 4]%nat [] 5
           (Sample.master ++ Sample.content) Sample.front Sample.back);
    [reflexivity | reflexivity | exact Hp].
Defined.

(** C8.  The stamp of round [i] has the back template's media box and
    holds the number's text drawn at ([x_pos], [y_pos]); the back page is
    the back template composed with it.  Both merges of the ladder put
    the stamp at offset (0, 0), so the back page is either the bare
    template or the template with the text layer at (0, 0) on top:
    [x_pos] and [y_pos] appear as the coordinates of the text and nowhere
    else. *)
Theorem C8_back_offset_zero
    (merge_raises : Page -> Page -> bool)
    (translated_merge_raises : Page -> Page -> float -> float -> bool)
    (front_x front_y : float) (start_num : Z) (x_pos y_pos : float)
    (master content : list Page) :
  (2 <= length master)%nat ->
  exists mb out,
    master !! 1%nat = Some mb /\
    run merge_raises translated_merge_raises front_x front_y start_num
      x_pos y_pos (Pdf master) (Pdf content) = Download out /\
    forall i, (i < length content)%nat ->
      let text :=
        DrawString "Helvetica" 20 x_pos y_pos
          (str (start_num + Z.of_nat i)) in
      let s :=
        MkPage (mediabox_width mb) (mediabox_height mb)
          [Layer text 0 0] in
      let stamped :=
        MkPage (mediabox_width mb) (mediabox_height mb)
          (contents mb ++ [Layer text 0 0]) in
      out !! (2 * i + 1)%nat =
        Some (compose_back merge_raises translated_merge_raises mb s) /\
      merged mb s = stamped /\
      merged_translated mb s 0 0 = stamped /\
      (out !! (2 * i + 1)%nat = Some stamped \/
       out !! (2 * i + 1)%nat = Some mb).
Proof.
  intros Hlen. destruct (two_pages master Hlen) as (mf & mb & rest & ->).
  exists mb. eexists. split; [reflexivity |].
  split; [apply run_assemble |].
  intros i Hi text s stamped.
  destruct (lookup_lt_is_Some_2 content i Hi) as [p E].
  destruct (assemble_lookup merge_raises translated_merge_raises
              front_x front_y x_pos y_pos mf mb content start_num i p E)
    as [_ Hb].
  assert (Hm : merged mb s = stamped) by reflexivity.
  assert (Ht : merged_translated mb s 0 0 = stamped) by reflexivity.
  split; [exact Hb |]. split; [exact Hm |]. split; [exact Ht |].
  rewrite Hb. unfold back_page, compose_back.
  change (stamp x_pos y_pos mb (start_num + Z.of_nat i)) with s.
  rewrite Hm, Ht.
  destruct (merge_raises mb s); [| left; reflexivity].
  destruct (translated_merge_raises mb s 0%float 0%float);
    [right | left]; reflexivity.
Qed.

Lemma C8_back_offset_zero_witness :
  (2 <= length Sample.master)%nat /\
  exists mb out,
    Sample.master !! 1%nat = Some mb /\
    run Sample.merge_ok Sample.translated_merge_ok (-1) (-1) 5
      50 50 (Pdf Sample.master) (Pdf Sample.content) = Download out /\
    forall i, (i < length Sample.content)%nat ->
      let text :=
        DrawString "Helvetica" 20 50 50 (str (5 + Z.of_nat i)) in
      let s :=
        MkPage (mediabox_width mb) (mediabox_height mb)
          [Layer text 0 0] in
      let stamped :=
        MkPage (mediabox_width mb) (mediabox_height mb)
          (contents mb ++ [Layer text 0 0]) in
      out !! (2 * i + 1)%nat =
        Some (compose_back Sample.merge_ok Sample.translated_merge_ok
                mb s) /\
      merged mb s = stamped /\
      merged_translated mb s 0 0 = stamped /\
      (out !! (2 * i + 1)%nat = Some stamped \/
       out !! (2 * i + 1)%nat = Some mb).
Proof.
  split; [simpl; lia |].
  apply (C8_back_offset_zero Sample.merge_ok Sample.translated_merge_ok
           (-1) (-1) 5 50 50 Sample.master Sample.content).
  simpl; lia.
Defined.




(** * Further properties of the script *)

(** ** What a click can end in *)

Section Outcomes.

Variable merge_raises : Page -> Page -> bool.
Variable translated_merge_raises : Page -> Page -> float -> float -> bool.
Variables front_x front_y : float.
Variable start_num : Z.
Variables x_pos y_pos : float.

Local Abbreviation create_pdf' :=
  (create_pdf merge_raises translated_merge_raises front_x front_y
     start_num x_pos y_pos).
Local Abbreviation run' :=
  (run merge_raises translated_merge_raises front_x front_y
     start_num x_pos y_pos).

Lemma run_unreadable_master multi_pdf_file :
  multi_pdf_file <> NoFile -> run' Unreadable multi_pdf_file = ExceptionShown.
Proof. destruct multi_pdf_file; [contradiction | reflexivity ..]. Qed.

Lemma run_unreadable_multi master_pdf_file :
  master_pdf_file <> NoFile -> run' master_pdf_file Unreadable = ExceptionShown.
Proof.
  destruct master_pdf_file as [| | | master];
    [contradiction | reflexivity | reflexivity |].
  intros _. unfold run, create_pdf, bind. cbn [uploaded negb orb].
  rewrite PdfReader_Pdf. reflexivity.
Qed.

Lemma run_encrypted_master multi_pdf_file :
  multi_pdf_file <> NoFile -> run' Encrypted multi_pdf_file = ExceptionShown.
Proof.
  destruct multi_pdf_file as [| | | content];
    [contradiction | reflexivity | reflexivity |].
  intros _. unfold run, create_pdf, bind. cbn [uploaded negb orb].
  rewrite PdfReader_Encrypted, PdfReader_Pdf, pages_of_NoPageList.
  reflexivity.
Qed.

(** The content document's pages are first used at line 65, after the
    master's pages were counted at line 55. *)
Lemma run_encrypted_multi master :
  run' (Pdf master) Encrypted =
    if (length master <? 2)%nat
    then Error "Master PDF must contain at least 2 pages."
    else ExceptionShown.
Proof.
  unfold run, create_pdf, bind. cbn [uploaded negb orb].
  rewrite PdfReader_Pdf, PdfReader_Encrypted, pages_of_PageList.
  rewrite length_seq.
  destruct (Nat.ltb_spec (length master) 2) as [Hlt | Hge];
    [reflexivity |].
  destruct (two_pages master Hge) as (mf & mb & rest & ->).
  reflexivity.
Qed.

(** The outcome of a click, case by case. *)
Lemma run_cases (master_pdf_file multi_pdf_file : upload) :
  let out := run' master_pdf_file multi_pdf_file in
  (out = Error "Please upload both master and multi‑page PDFs." /\
   (master_pdf_file = NoFile \/ multi_pdf_file = NoFile)) \/
  (out = ExceptionShown /\
   master_pdf_file <> NoFile /\ multi_pdf_file <> NoFile /\
   (master_pdf_file = Unreadable \/ multi_pdf_file = Unreadable \/
    master_pdf_file = Encrypted \/ multi_pdf_file = Encrypted)) \/
  (out = Error "Master PDF must contain at least 2 pages." /\
   multi_pdf_file <> NoFile /\ multi_pdf_file <> Unreadable /\
   exists master,
     master_pdf_file = Pdf master /\ (length master < 2)%nat) \/
  (exists mf mb rest content,
     master_pdf_file = Pdf (mf :: mb :: rest) /\
     multi_pdf_file = Pdf content /\
     out = Download (assemble merge_raises translated_merge_raises
                       front_x front_y x_pos y_pos mf mb content
                       start_num)).
Proof.
  intros out. subst out.
  assert (Hdec : forall u, u = NoFile \/ u <> NoFile).
  { intros [| | |]; [left; reflexivity | right; discriminate ..]. }
  destruct (Hdec master_pdf_file) as [-> | Hm].
  { left. split; [reflexivity | left; reflexivity]. }
  destruct (Hdec multi_pdf_file) as [-> | Hc].
  { left. split; [| right; reflexivity].
    destruct master_pdf_file; reflexivity. }
  destruct master_pdf_file as [| | | master]; [contradiction | | |].
  - right; left. rewrite run_unreadable_master by exact Hc.
    repeat split; try assumption. left; reflexivity.
  - right; left. rewrite run_encrypted_master by exact Hc.
    repeat split; try assumption. right; right; left; reflexivity.
  - destruct multi_pdf_file as [| | | content]; [contradiction | | |].
    + right; left. rewrite run_unreadable_multi by exact Hm.
      repeat split; try assumption. right; left; reflexivity.
    + rewrite run_encrypted_multi.
      destruct (Nat.ltb_spec (length master) 2) as [Hlt | Hge].
      * right; right; left. repeat split; try discriminate.
        exists master. split; [reflexivity | exact Hlt].
      * right; left. repeat split; try assumption.
        right; right; right; reflexivity.
    + destruct (Nat.lt_ge_cases (length master) 2) as [Hlt | Hge].
      * right; right; left. split.
        -- unfold run. cbn [uploaded negb orb].
           rewrite create_pdf_short by exact Hlt. reflexivity.
        -- repeat split; try discriminate.
           exists master. split; [reflexivity | exact Hlt].
      * right; right; right.
        destruct (two_pages master Hge) as (mf & mb & rest & ->).
        exists mf, mb, rest, content.
        split; [reflexivity |]. split; [reflexivity |].
        apply run_assemble.
Qed.

End Outcomes.

(** X1.  A download is offered only when both files were read as PDFs
    and the master has at least two pages, and it then has twice as many
    pages as the content document: no other path of the script produces
    a document, not even a partial one. *)
Theorem X1_download_only_if
    (merge_raises : Page -> Page -> bool)
    (translated_merge_raises : Page -> Page -> float -> float -> bool)
    (front_x front_y : float) (start_num : Z) (x_pos y_pos : float)
    (master_pdf_file multi_pdf_file : upload) (out : list Page) :
  run merge_raises translated_merge_raises front_x front_y start_num
    x_pos y_pos master_pdf_file multi_pdf_file = Download out ->
  exists master content,
    master_pdf_file = Pdf master /\ multi_pdf_file = Pdf content /\
    (2 <= length master)%nat /\
    length out = (2 * length content)%nat.
Proof.
  intros Hout.
  pose proof (run_cases merge_raises translated_merge_raises front_x
                front_y start_num x_pos y_pos master_pdf_file
                multi_pdf_file) as H. cbn zeta in H.
  rewrite Hout in H.
  destruct H as [[H _] | [[H _] | [[H _] | H]]]; try discriminate.
  destruct H as (mf & mb & rest & content & -> & -> & H).
  injection H as ->.
  exists (mf :: mb :: rest), content.
  split; [reflexivity |]. split; [reflexivity |].
  split; [cbn [length]; lia | apply length_assemble].
Qed.

Lemma X1_download_only_if_witness :
  run Sample.merge_narrow Sample.translated_merge_never (-1) (-1) 5
    50 50 (Pdf Sample.master) (Pdf Sample.content)
  = Download
      [merged Sample.front Sample.page_a;
       merged Sample.back (stamp 50 50 Sample.back 5);
       merged Sample.front Sample.page_b;
       merged Sample.back (stamp 50 50 Sample.back 6);
       Sample.front;
       merged Sample.back (stamp 50 50 Sample.back 7)] /\
  exists master content,
    Pdf Sample.master = Pdf master /\ Pdf Sample.content = Pdf content /\
    (2 <= length master)%nat /\
    length
      [merged Sample.front Sample.page_a;
       merged Sample.back (stamp 50 50 Sample.back 5);
       merged Sample.front Sample.page_b;
       merged Sample.back (stamp 50 50 Sample.back 6);
       Sample.front;
       merged Sample.back (stamp 50 50 Sample.back 7)]
    = (2 * length content)%nat.
Proof.
  split; [reflexivity |].
  apply (X1_download_only_if Sample.merge_narrow
           Sample.translated_merge_never (-1) (-1) 5 50 50
           (Pdf Sample.master) (Pdf Sample.content)).
  reflexivity.
Defined.

(** X2.  With both files uploaded, the exception display of line 143 is
    what the user gets when [PdfReader] raises on either file, or when
    the master's page list cannot be read.  Both readers are made
    (lines 52-53) before the master's pages are counted (line 55), so a
    content file on which [PdfReader] raises hides a master that is too
    short. *)
Theorem X2_reader_raises
    (merge_raises : Page -> Page -> bool)
    (translated_merge_raises : Page -> Page -> float -> float -> bool)
    (front_x front_y : float) (start_num : Z) (x_pos y_pos : float)
    (master_pdf_file multi_pdf_file : upload) :
  master_pdf_file <> NoFile ->
  multi_pdf_file <> NoFile ->
  master_pdf_file = Unreadable \/ multi_pdf_file = Unreadable \/
    master_pdf_file = Encrypted ->
  run merge_raises translated_merge_raises front_x front_y start_num
    x_pos y_pos master_pdf_file multi_pdf_file = ExceptionShown.
Proof.
  intros Hm Hc [-> | [-> | ->]].
  - apply run_unreadable_master. exact Hc.
  - apply run_unreadable_multi. exact Hm.
  - apply run_encrypted_master. exact Hc.
Qed.

Lemma X2_reader_raises_witness :
  Pdf [Sample.front] <> NoFile /\
  Unreadable <> NoFile /\
  (Pdf [Sample.front] = Unreadable \/ Unreadable = Unreadable \/
   Pdf [Sample.front] = Encrypted) /\
  run Sample.merge_ok Sample.translated_merge_ok (-1) (-1) 5
    50 50 (Pdf [Sample.front]) Unreadable = ExceptionShown.
Proof.
  split; [discriminate |]. split; [discriminate |].
  split; [right; left; reflexivity |].
  apply (X2_reader_raises Sample.merge_ok Sample.translated_merge_ok
           (-1) (-1) 5 50 50 (Pdf [Sample.front]) Unreadable);
    [discriminate | discriminate | right; left; reflexivity].
Defined.

(** X13.  A content file that opens but whose page list cannot be read is
    found out at line 65 only: with a master that is too short the user
    still gets the message of line 56, with a master of two pages or more
    the exception display. *)
Theorem X13_content_pages_read_late
    (merge_raises : Page -> Page -> bool)
    (translated_merge_raises : Page -> Page -> float -> float -> bool)
    (front_x front_y : float) (start_num : Z) (x_pos y_pos : float)
    (master : list Page) :
  ((length master < 2)%nat ->
   run merge_raises translated_merge_raises front_x front_y start_num
     x_pos y_pos (Pdf master) Encrypted
   = Error "Master PDF must contain at least 2 pages.") /\
  ((2 <= length master)%nat ->
   run merge_raises translated_merge_raises front_x front_y start_num
     x_pos y_pos (Pdf master) Encrypted = ExceptionShown).
Proof.
  rewrite run_encrypted_multi.
  destruct (Nat.ltb_spec (length master) 2) as [Hlt | Hge].
  - split; [reflexivity | lia].
  - split; [lia | reflexivity].
Qed.

(** X3.  The request to upload both files is shown exactly when one of
    the two is missing, whatever the other one is: nothing is read before
    both are there. *)
Theorem X3_missing_upload_iff
    (merge_raises : Page -> Page -> bool)
    (translated_merge_raises : Page -> Page -> float -> float -> bool)
    (front_x front_y : float) (start_num : Z) (x_pos y_pos : float)
    (master_pdf_file multi_pdf_file : upload) :
  run merge_raises translated_merge_raises front_x front_y start_num
    x_pos y_pos master_pdf_file multi_pdf_file
    = Error "Please upload both master and multi‑page PDFs."
  <->
  (master_pdf_file = NoFile \/ multi_pdf_file = NoFile).
Proof.
  pose proof (run_cases merge_raises translated_merge_raises front_x
                front_y start_num x_pos y_pos master_pdf_file
                multi_pdf_file) as H. cbn zeta in H.
  split.
  - intros Hout. rewrite Hout in H.
    destruct H as [[_ H] | [[H _] | [[H _] | H]]]; try discriminate.
    + exact H.
    + destruct H as (? & ? & ? & ? & _ & _ & H). discriminate.
  - intros Hu.
    destruct H as [[H _] | [[_ (Hm & Hc & _)] | [[_ H] | H]]].
    + exact H.
    + destruct Hu; contradiction.
    + destruct H as (Hc & _ & ? & -> & _).
      destruct Hu; [discriminate | contradiction].
    + destruct H as (? & ? & ? & ? & -> & -> & _).
      destruct Hu; discriminate.
Qed.

(** ** Which inputs the output depends on *)

(** X4.  Only the first two pages of the master are used: any further
    page of the master changes nothing, whatever the second file is. *)
Theorem X4_extra_master_pages_ignored
    (merge_raises : Page -> Page -> bool)
    (translated_merge_raises : Page -> Page -> float -> float -> bool)
    (front_x front_y : float) (start_num : Z) (x_pos y_pos : float)
    (mf mb : Page) (rest : list Page) (multi_pdf_file : upload) :
  run merge_raises translated_merge_raises front_x front_y start_num
    x_pos y_pos (Pdf (mf :: mb :: rest)) multi_pdf_file
  = run merge_raises translated_merge_raises front_x front_y start_num
      x_pos y_pos (Pdf [mf; mb]) multi_pdf_file.
Proof.
  destruct multi_pdf_file as [| | | content].
  - reflexivity.
  - rewrite !run_unreadable_multi by discriminate. reflexivity.
  - rewrite !run_encrypted_multi. reflexivity.
  - rewrite !run_assemble. reflexivity.
Qed.

Lemma assemble_app
    (merge_raises : Page -> Page -> bool)
    (translated_merge_raises : Page -> Page -> float -> float -> bool)
    (front_x front_y x_pos y_pos : float) (mf mb : Page)
    (content1 content2 : list Page) : forall number,
  assemble merge_raises translated_merge_raises front_x front_y
    x_pos y_pos mf mb (content1 ++ content2) number
  = assemble merge_raises translated_merge_raises front_x front_y
      x_pos y_pos mf mb content1 number
    ++ assemble merge_raises translated_merge_raises front_x front_y
         x_pos y_pos mf mb content2
         (number + Z.of_nat (length content1)).
Proof.
  induction content1 as [| p content1 IH]; intros number.
  - cbn [app assemble length]. rewrite Z.add_0_r. reflexivity.
  - cbn [app assemble length]. rewrite IH.
    replace (number + 1 + Z.of_nat (length content1))
      with (number + Z.of_nat (S (length content1))) by lia.
    reflexivity.
Qed.

(** X5.  A job can be cut in two: the output for a content document made
    of two parts is the output for the first part, followed by the
    output for the second part when its numbering starts where the
    first part's numbering ended. *)
Theorem X5_split_job
    (merge_raises : Page -> Page -> bool)
    (translated_merge_raises : Page -> Page -> float -> float -> bool)
    (front_x front_y : float) (start_num : Z) (x_pos y_pos : float)
    (master content1 content2 : list Page) :
  (2 <= length master)%nat ->
  exists out1 out2,
    run merge_raises translated_merge_raises front_x front_y start_num
      x_pos y_pos (Pdf master) (Pdf content1) = Download out1 /\
    run merge_raises translated_merge_raises front_x front_y
      (start_num + Z.of_nat (length content1))
      x_pos y_pos (Pdf master) (Pdf content2) = Download out2 /\
    run merge_raises translated_merge_raises front_x front_y start_num
      x_pos y_pos (Pdf master) (Pdf (content1 ++ content2))
      = Download (out1 ++ out2).
Proof.
  intros Hlen. destruct (two_pages master Hlen) as (mf & mb & rest & ->).
  eexists. eexists.
  split; [apply run_assemble |]. split; [apply run_assemble |].
  rewrite run_assemble, assemble_app. reflexivity.
Qed.

Lemma X5_split_job_witness :
  (2 <= length Sample.master)%nat /\
  exists out1 out2,
    run Sample.merge_narrow Sample.translated_merge_ok (-1) 40 5
      50 50 (Pdf Sample.master) (Pdf [Sample.page_a; Sample.page_c])
      = Download out1 /\
    run Sample.merge_narrow Sample.translated_merge_ok (-1) 40
      (5 + Z.of_nat (length [Sample.page_a; Sample.page_c]))
      50 50 (Pdf Sample.master) (Pdf [Sample.page_b]) = Download out2 /\
    run Sample.merge_narrow Sample.translated_merge_ok (-1) 40 5
      50 50 (Pdf Sample.master)
      (Pdf ([Sample.page_a; Sample.page_c] ++ [Sample.page_b]))
      = Download (out1 ++ out2).
Proof.
  split; [simpl; lia |].
  apply (X5_split_job Sample.merge_narrow Sample.translated_merge_ok
           (-1) 40 5 50 50 Sample.master
           [Sample.page_a; Sample.page_c] [Sample.page_b]).
  simpl; lia.
Defined.

(** X6.  The two front coordinates are resolved one by one.  A
    coordinate for which [>= 0] holds is used as given; one for which it
    does not hold (any negative value, or a NaN) is replaced by the
    centring offset of its own axis, whatever the other coordinate is:
    all four combinations of the two tests are covered. *)
Theorem X6_axes_resolved_separately
    (merge_raises : Page -> Page -> bool)
    (translated_merge_raises : Page -> Page -> float -> float -> bool)
    (front_x front_y : float) (start_num : Z) (x_pos y_pos : float)
    (master content : list Page) :
  (2 <= length master)%nat ->
  exists mf out,
    master !! 0%nat = Some mf /\
    run merge_raises translated_merge_raises front_x front_y start_num
      x_pos y_pos (Pdf master) (Pdf content) = Download out /\
    forall i p, content !! i = Some p ->
      let cx := ((mediabox_width mf - mediabox_width p) / 2)%float in
      let cy := ((mediabox_height mf - mediabox_height p) / 2)%float in
      let composed fx fy :=
        Some (compose_front merge_raises translated_merge_raises
                mf p fx fy) in
      ((0 <=? front_x)%float = true -> (0 <=? front_y)%float = true ->
       out !! (2 * i)%nat = composed front_x front_y) /\
      ((0 <=? front_x)%float = true -> (0 <=? front_y)%float = false ->
       out !! (2 * i)%nat = composed front_x cy) /\
      ((0 <=? front_x)%float = false -> (0 <=? front_y)%float = true ->
       out !! (2 * i)%nat = composed cx front_y) /\
      ((0 <=? front_x)%float = false -> (0 <=? front_y)%float = false ->
       out !! (2 * i)%nat = composed cx cy).
Proof.
  intros Hlen. destruct (two_pages master Hlen) as (mf & mb & rest & ->).
  exists mf. eexists. split; [reflexivity |].
  split; [apply run_assemble |].
  intros i p E cx cy composed.
  destruct (assemble_lookup merge_raises translated_merge_raises
              front_x front_y x_pos y_pos mf mb content start_num i p E)
    as [Hf _].
  rewrite Hf. unfold front_page, place, composed.
  repeat split; intros Hx Hy; rewrite Hx, Hy; reflexivity.
Qed.

Lemma X6_axes_resolved_separately_witness :
  (2 <= length Sample.master)%nat /\
  exists mf out,
    Sample.master !! 0%nat = Some mf /\
    run Sample.merge_ok Sample.translated_merge_ok 30 (-7) 5
      50 50 (Pdf Sample.master) (Pdf Sample.content) = Download out /\
    forall i p, Sample.content !! i = Some p ->
      let cx := ((mediabox_width mf - mediabox_width p) / 2)%float in
      let cy := ((mediabox_height mf - mediabox_height p) / 2)%float in
      let composed fx fy :=
        Some (compose_front Sample.merge_ok Sample.translated_merge_ok
                mf p fx fy) in
      ((0 <=? 30)%float = true -> (0 <=? -7)%float = true ->
       out !! (2 * i)%nat = composed 30%float (-7)%float) /\
      ((0 <=? 30)%float = true -> (0 <=? -7)%float = false ->
       out !! (2 * i)%nat = composed 30%float cy) /\
      ((0 <=? 30)%float = false -> (0 <=? -7)%float = true ->
       out !! (2 * i)%nat = composed cx (-7)%float) /\
      ((0 <=? 30)%float = false -> (0 <=? -7)%float = false ->
       out !! (2 * i)%nat = composed cx cy).
Proof.
  split; [simpl; lia |].
  apply (X6_axes_resolved_separately Sample.merge_ok
           Sample.translated_merge_ok 30 (-7) 5 50 50
           Sample.master Sample.content).
  simpl; lia.
Defined.

(** A front coordinate of 30 with the other at -7, and a NaN: the first
    axis is explicit, the second centred, the NaN centred as well. *)
Example mixed_placement_sample :
  run Sample.merge_ok Sample.translated_merge_ok 30 (-7) 5 50 50
    (Pdf Sample.master) (Pdf [Sample.page_a])
  = Download [merged_translated Sample.front Sample.page_a 30 10;
              merged Sample.back (stamp 50 50 Sample.back 5)]
  /\ place nan 200 180 = 10%float.
Proof. split; reflexivity. Qed.

(** X7.  Whatever the merges do, a front page of the output starts with
    the layers of the front template, as they are in the template.
    After them comes either nothing (both merges raised) or the whole
    content page, layer for layer with the same drawings: a content page
    is never shown in part, and only its position can change. *)
Theorem X7_front_layers
    (merge_raises : Page -> Page -> bool)
    (translated_merge_raises : Page -> Page -> float -> float -> bool)
    (front_x front_y : float) (start_num : Z) (x_pos y_pos : float)
    (master content : list Page) :
  (2 <= length master)%nat ->
  exists mf out,
    master !! 0%nat = Some mf /\
    run merge_raises translated_merge_raises front_x front_y start_num
      x_pos y_pos (Pdf master) (Pdf content) = Download out /\
    forall i p, content !! i = Some p ->
      exists f added,
        out !! (2 * i)%nat = Some f /\
        contents f = contents mf ++ added /\
        (added = [] \/
         map graphic_of added = map graphic_of (contents p)).
Proof.
  intros Hlen. destruct (two_pages master Hlen) as (mf & mb & rest & ->).
  exists mf. eexists. split; [reflexivity |].
  split; [apply run_assemble |].
  intros i p E.
  destruct (assemble_lookup merge_raises translated_merge_raises
              front_x front_y x_pos y_pos mf mb content start_num i p E)
    as [Hf _].
  rewrite Hf. unfold front_page, compose_front.
  destruct (translated_merge_raises mf p _ _).
  - destruct (merge_raises mf p).
    + exists mf, []. split; [reflexivity |].
      split; [rewrite app_nil_r; reflexivity | left; reflexivity].
    + eexists. exists (contents p). split; [reflexivity |].
      split; [reflexivity | right; reflexivity].
  - eexists. eexists. split; [reflexivity |].
    split; [reflexivity |]. right.
    rewrite map_map. reflexivity.
Qed.

Lemma X7_front_layers_witness :
  (2 <= length Sample.master)%nat /\
  exists mf out,
    Sample.master !! 0%nat = Some mf /\
    run Sample.merge_narrow Sample.translated_merge_never (-1) (-1) 5
      50 50 (Pdf Sample.master) (Pdf Sample.content) = Download out /\
    forall i p, Sample.content !! i = Some p ->
      exists f added,
        out !! (2 * i)%nat = Some f /\
        contents f = contents mf ++ added /\
        (added = [] \/
         map graphic_of added = map graphic_of (contents p)).
Proof.
  split; [simpl; lia |].
  apply (X7_front_layers Sample.merge_narrow
           Sample.translated_merge_never (-1) (-1) 5 50 50
           Sample.master Sample.content).
  simpl; lia.
Defined.

(** X8.  A back page depends on the back template, the number and the
    number's position, and on nothing else: two jobs with the same back
    template and number position give the same back page wherever their
    running numbers agree, whatever their front templates, front
    coordinates and content pages are. *)
Theorem X8_back_page_depends_on
    (merge_raises : Page -> Page -> bool)
    (translated_merge_raises : Page -> Page -> float -> float -> bool)
    (x_pos y_pos : float) (mb : Page)
    (front_x1 front_y1 front_x2 front_y2 : float)
    (start_num1 start_num2 : Z)
    (mf1 mf2 : Page) (rest1 rest2 content1 content2 : list Page)
    (i j : nat) :
  (i < length content1)%nat ->
  (j < length content2)%nat ->
  start_num1 + Z.of_nat i = start_num2 + Z.of_nat j ->
  exists out1 out2 b,
    run merge_raises translated_merge_raises front_x1 front_y1 start_num1
      x_pos y_pos (Pdf (mf1 :: mb :: rest1)) (Pdf content1)
      = Download out1 /\
    run merge_raises translated_merge_raises front_x2 front_y2 start_num2
      x_pos y_pos (Pdf (mf2 :: mb :: rest2)) (Pdf content2)
      = Download out2 /\
    out1 !! (2 * i + 1)%nat = Some b /\
    out2 !! (2 * j + 1)%nat = Some b.
Proof.
  intros Hi Hj Hn.
  destruct (lookup_lt_is_Some_2 content1 i Hi) as [p1 E1].
  destruct (lookup_lt_is_Some_2 content2 j Hj) as [p2 E2].
  destruct (assemble_lookup merge_raises translated_merge_raises
              front_x1 front_y1 x_pos y_pos mf1 mb content1 start_num1
              i p1 E1) as [_ Hb1].
  destruct (assemble_lookup merge_raises translated_merge_raises
              front_x2 front_y2 x_pos y_pos mf2 mb content2 start_num2
              j p2 E2) as [_ Hb2].
  eexists. eexists. eexists.
  split; [apply run_assemble |]. split; [apply run_assemble |].
  split; [exact Hb1 |]. rewrite Hn. exact Hb2.
Qed.

Lemma X8_back_page_depends_on_witness :
  (1 < length [Sample.page_a; Sample.page_b])%nat /\
  (0 < length [Sample.page_c])%nat /\
  5 + Z.of_nat 1 = 6 + Z.of_nat 0 /\
  exists out1 out2 b,
    run Sample.merge_ok Sample.translated_merge_ok (-1) (-1) 5
      50 50 (Pdf (Sample.front :: Sample.back :: []))
      (Pdf [Sample.page_a; Sample.page_b]) = Download out1 /\
    run Sample.merge_ok Sample.translated_merge_ok 30 0 6
      50 50 (Pdf (Sample.page_b :: Sample.back :: [Sample.front]))
      (Pdf [Sample.page_c]) = Download out2 /\
    out1 !! (2 * 1 + 1)%nat = Some b /\
    out2 !! (2 * 0 + 1)%nat = Some b.
Proof.
  split; [simpl; lia |]. split; [simpl; lia |]. split; [reflexivity |].
  apply (X8_back_page_depends_on Sample.merge_ok
           Sample.translated_merge_ok 50 50 Sample.back
           (-1) (-1) 30 0 5 6 Sample.front Sample.page_b [] [Sample.front]
           [Sample.page_a; Sample.page_b] [Sample.page_c] 1%nat 0%nat);
    [simpl; lia | simpl; lia | reflexivity].
Defined.

(** X9.  A front page depends on the front template, the front
    coordinates and its own content page, and on nothing else: the same
    content page gives the same front page wherever it stands, in the
    same job or in another one, whatever the other content pages, the
    back template, the starting number and the number's position are.
    In particular no round sees what an earlier round put on the
    template. *)
Theorem X9_front_page_depends_on
    (merge_raises : Page -> Page -> bool)
    (translated_merge_raises : Page -> Page -> float -> float -> bool)
    (front_x front_y : float) (mf : Page)
    (start_num1 start_num2 : Z) (x_pos1 y_pos1 x_pos2 y_pos2 : float)
    (mb1 mb2 : Page) (rest1 rest2 content1 content2 : list Page)
    (i j : nat) (p : Page) :
  content1 !! i = Some p ->
  content2 !! j = Some p ->
  exists out1 out2 f,
    run merge_raises translated_merge_raises front_x front_y start_num1
      x_pos1 y_pos1 (Pdf (mf :: mb1 :: rest1)) (Pdf content1)
      = Download out1 /\
    run merge_raises translated_merge_raises front_x front_y start_num2
      x_pos2 y_pos2 (Pdf (mf :: mb2 :: rest2)) (Pdf content2)
      = Download out2 /\
    out1 !! (2 * i)%nat = Some f /\
    out2 !! (2 * j)%nat = Some f.
Proof.
  intros E1 E2.
  destruct (assemble_lookup merge_raises translated_merge_raises
              front_x front_y x_pos1 y_pos1 mf mb1 content1 start_num1
              i p E1) as [Hf1 _].
  destruct (assemble_lookup merge_raises translated_merge_raises
              front_x front_y x_pos2 y_pos2 mf mb2 content2 start_num2
              j p E2) as [Hf2 _].
  eexists. eexists. eexists.
  split; [apply run_assemble |]. split; [apply run_assemble |].
  split; [exact Hf1 | exact Hf2].
Qed.

Lemma X9_front_page_depends_on_witness :
  [Sample.page_a; Sample.page_b; Sample.page_a] !! 0%nat
    = Some Sample.page_a /\
  [Sample.page_a; Sample.page_b; Sample.page_a] !! 2%nat
    = Some Sample.page_a /\
  exists out1 out2 f,
    run Sample.merge_ok Sample.translated_merge_ok (-1) (-1) 5
      50 50 (Pdf (Sample.front :: Sample.back :: []))
      (Pdf [Sample.page_a; Sample.page_b; Sample.page_a])
      = Download out1 /\
    run Sample.merge_ok Sample.translated_merge_ok (-1) (-1) 5
      50 50 (Pdf (Sample.front :: Sample.back :: []))
      (Pdf [Sample.page_a; Sample.page_b; Sample.page_a])
      = Download out2 /\
    out1 !! (2 * 0)%nat = Some f /\
    out2 !! (2 * 2)%nat = Some f.
Proof.
  split; [reflexivity |]. split; [reflexivity |].
  apply (X9_front_page_depends_on Sample.merge_ok
           Sample.translated_merge_ok (-1) (-1) Sample.front
           5 5 50 50 50 50 Sample.back Sample.back [] []
           [Sample.page_a; Sample.page_b; Sample.page_a]
           [Sample.page_a; Sample.page_b; Sample.page_a]
           0%nat 2%nat Sample.page_a);
    reflexivity.
Defined.

(** ** Numbers and their text *)

Lemma read_digits_digits n : 0 <= n -> read_digits 0 (digits n) = n.
Proof.
  intros Hn. unfold digits.
  destruct (read_digits_digits_acc (Z.to_nat n) n) as [k Hk]; [lia |].
  rewrite Hk. cbn [read_digits]. lia.
Qed.

Lemma all_digits_digits n : all_digits (digits n) = true.
Proof. apply all_digits_digits_acc. reflexivity. Qed.

(** Different integers have different texts, negative ones included. *)
Lemma str_inj n m : str n = str m -> n = m.
Proof.
  unfold str.
  destruct (Z.ltb_spec n 0) as [Hn | Hn], (Z.ltb_spec m 0) as [Hm | Hm];
    intros E.
  - injection E as E. apply (f_equal (read_digits 0)) in E.
    rewrite !read_digits_digits in E by lia. lia.
  - apply (f_equal all_digits) in E.
    rewrite all_digits_digits in E. discriminate.
  - apply (f_equal all_digits) in E.
    rewrite all_digits_digits in E. discriminate.
  - apply (f_equal (read_digits 0)) in E.
    rewrite !read_digits_digits in E by lia. exact E.
Qed.

(** X10.  No two rounds of a job draw the same text: the stamps of two
    different rounds differ, for every starting number. *)
Theorem X10_numbers_never_repeat
    (x_pos y_pos : float) (mb : Page) (start_num : Z) (i j : nat) :
  i <> j ->
  str (start_num + Z.of_nat i) <> str (start_num + Z.of_nat j) /\
  stamp x_pos y_pos mb (start_num + Z.of_nat i)
    <> stamp x_pos y_pos mb (start_num + Z.of_nat j).
Proof.
  intros Hij.
  assert (Hs : str (start_num + Z.of_nat i)
               <> str (start_num + Z.of_nat j)).
  { intros E. apply str_inj in E. lia. }
  split; [exact Hs |].
  intros E. unfold stamp in E. injection E as E. contradiction.
Qed.

Lemma X10_numbers_never_repeat_witness :
  0%nat <> 1%nat /\
  str (9 + Z.of_nat 0) <> str (9 + Z.of_nat 1) /\
  stamp 50 50 Sample.back (9 + Z.of_nat 0)
    <> stamp 50 50 Sample.back (9 + Z.of_nat 1).
Proof.
  split; [lia |].
  apply (X10_numbers_never_repeat 50 50 Sample.back 9 0%nat 1%nat). lia.
Defined.

(** ** When an overlay is lost *)

Lemma contents_app_ne (l added : list layer) :
  added <> [] -> l ++ added <> l.
Proof.
  intros Hne E. apply (f_equal length) in E. rewrite length_app in E.
  destruct added; [contradiction | cbn [length] in E; lia].
Qed.

(** X11.  Back page [i] is left without its number exactly when both
    merges of the stamp raise.  The plain merge is tried first; when it
    raises and the merge translated by (0, 0) does not, the page is
    stamped all the same. *)
Theorem X11_number_lost_iff
    (merge_raises : Page -> Page -> bool)
    (translated_merge_raises : Page -> Page -> float -> float -> bool)
    (front_x front_y : float) (start_num : Z) (x_pos y_pos : float)
    (master content : list Page) :
  (2 <= length master)%nat ->
  exists mb out,
    master !! 1%nat = Some mb /\
    run merge_raises translated_merge_raises front_x front_y start_num
      x_pos y_pos (Pdf master) (Pdf content) = Download out /\
    forall i, (i < length content)%nat ->
      let s := stamp x_pos y_pos mb (start_num + Z.of_nat i) in
      (out !! (2 * i + 1)%nat = Some mb <->
       merge_raises mb s = true /\
       translated_merge_raises mb s 0%float 0%float = true) /\
      (merge_raises mb s = false ->
       out !! (2 * i + 1)%nat = Some (merged mb s)) /\
      (merge_raises mb s = true ->
       translated_merge_raises mb s 0%float 0%float = false ->
       out !! (2 * i + 1)%nat = Some (merged_translated mb s 0 0)).
Proof.
  intros Hlen. destruct (two_pages master Hlen) as (mf & mb & rest & ->).
  exists mb. eexists. split; [reflexivity |].
  split; [apply run_assemble |].
  intros i Hi s.
  destruct (lookup_lt_is_Some_2 content i Hi) as [p E].
  destruct (assemble_lookup merge_raises translated_merge_raises
              front_x front_y x_pos y_pos mf mb content start_num i p E)
    as [_ Hb].
  rewrite Hb. unfold back_page, compose_back. fold s.
  assert (Hm : merged mb s <> mb).
  { intros Eq. apply (f_equal contents) in Eq. revert Eq.
    apply contents_app_ne. discriminate. }
  assert (Ht : merged_translated mb s 0 0 <> mb).
  { intros Eq. apply (f_equal contents) in Eq. revert Eq.
    apply contents_app_ne. discriminate. }
  destruct (merge_raises mb s);
    [destruct (translated_merge_raises mb s 0%float 0%float) |].
  - split; [split; [intros _; split; reflexivity | reflexivity] |].
    split; [discriminate | discriminate].
  - split; [split; [intros Eq; injection Eq as Eq; contradiction
                   | intros [_ ?]; discriminate] |].
    split; [discriminate | reflexivity].
  - split; [split; [intros Eq; injection Eq as Eq; contradiction
                   | intros [? _]; discriminate] |].
    split; [reflexivity | discriminate].
Qed.

Lemma X11_number_lost_iff_witness :
  (2 <= length Sample.master)%nat /\
  exists mb out,
    Sample.master !! 1%nat = Some mb /\
    run Sample.merge_narrow Sample.translated_merge_never (-1) (-1) 5
      50 50 (Pdf Sample.master) (Pdf Sample.content) = Download out /\
    forall i, (i < length Sample.content)%nat ->
      let s := stamp 50 50 mb (5 + Z.of_nat i) in
      (out !! (2 * i + 1)%nat = Some mb <->
       Sample.merge_narrow mb s = true /\
       Sample.translated_merge_never mb s 0%float 0%float = true) /\
      (Sample.merge_narrow mb s = false ->
       out !! (2 * i + 1)%nat = Some (merged mb s)) /\
      (Sample.merge_narrow mb s = true ->
       Sample.translated_merge_never mb s 0%float 0%float = false ->
       out !! (2 * i + 1)%nat = Some (merged_translated mb s 0 0)).
Proof.
  split; [simpl; lia |].
  apply (X11_number_lost_iff Sample.merge_narrow
           Sample.translated_merge_never (-1) (-1) 5 50 50
           Sample.master Sample.content).
  simpl; lia.
Defined.

(** X12.  A content page that shows something is missing from its front
    page exactly when the translated merge and the plain merge both
    raise; the front page is then the front template as it is. *)
Theorem X12_content_lost_iff
    (merge_raises : Page -> Page -> bool)
    (translated_merge_raises : Page -> Page -> float -> float -> bool)
    (front_x front_y : float) (start_num : Z) (x_pos y_pos : float)
    (master content : list Page) (i : nat) (p : Page) :
  (2 <= length master)%nat ->
  content !! i = Some p ->
  contents p <> [] ->
  exists mf out,
    master !! 0%nat = Some mf /\
    run merge_raises translated_merge_raises front_x front_y start_num
      x_pos y_pos (Pdf master) (Pdf content) = Download out /\
    let fx := place front_x (mediabox_width mf) (mediabox_width p) in
    let fy := place front_y (mediabox_height mf) (mediabox_height p) in
    (out !! (2 * i)%nat = Some mf <->
     translated_merge_raises mf p fx fy = true /\
     merge_raises mf p = true).
Proof.
  intros Hlen E Hp.
  destruct (two_pages master Hlen) as (mf & mb & rest & ->).
  exists mf. eexists. split; [reflexivity |].
  split; [apply run_assemble |].
  intros fx fy.
  destruct (assemble_lookup merge_raises translated_merge_raises
              front_x front_y x_pos y_pos mf mb content start_num i p E)
    as [Hf _].
  rewrite Hf. unfold front_page, compose_front. fold fx fy.
  assert (Hm : merged mf p <> mf).
  { intros Eq. apply (f_equal contents) in Eq. revert Eq.
    apply contents_app_ne. exact Hp. }
  assert (Ht : merged_translated mf p fx fy <> mf).
  { intros Eq. apply (f_equal contents) in Eq. revert Eq.
    apply contents_app_ne. destruct (contents p); [contradiction |].
    discriminate. }
  destruct (translated_merge_raises mf p fx fy);
    [destruct (merge_raises mf p) |].
  - split; [intros _; split; reflexivity | reflexivity].
  - split; [intros Eq; injection Eq as Eq; contradiction
           | intros [_ ?]; discriminate].
  - split; [intros Eq; injection Eq as Eq; contradiction
           | intros [? _]; discriminate].
Qed.

Lemma X12_content_lost_iff_witness :
  (2 <= length Sample.master)%nat /\
  Sample.content !! 2%nat = Some Sample.page_c /\
  contents Sample.page_c <> [] /\
  exists mf out,
    Sample.master !! 0%nat = Some mf /\
    run Sample.merge_narrow Sample.translated_merge_never (-1) (-1) 5
      50 50 (Pdf Sample.master) (Pdf Sample.content) = Download out /\
    let fx :=
      place (-1) (mediabox_width mf) (mediabox_width Sample.page_c) in
    let fy :=
      place (-1) (mediabox_height mf) (mediabox_height Sample.page_c) in
    (out !! (2 * 2)%nat = Some mf <->
     Sample.translated_merge_never mf Sample.page_c fx fy = true /\
     Sample.merge_narrow mf Sample.page_c = true).
Proof.
  split; [simpl; lia |]. split; [reflexivity |].
  split; [discriminate |].
  apply (X12_content_lost_iff Sample.merge_narrow
           Sample.translated_merge_never (-1) (-1) 5 50 50
           Sample.master Sample.content 2%nat Sample.page_c);
    [simpl; lia | reflexivity | discriminate].
Defined.
